(** * pyequationsolver: the solve pipeline of [eqation.py]

    [solve_for_x] reads one line, turns it into an expression that must
    equal zero, asks SymPy for the real solutions, and falls back on
    SciPy's [fsolve] when that answer is not a non-empty finite set.

    SymPy, SciPy and NumPy are not part of the repository: they are taken
    as parameters ([Libraries]).  What is modelled here is the Python of
    [eqation.py] itself: its string handling, its local variables, its
    [try]/[except] blocks and everything it prints. *)

From Stdlib Require Import String Ascii List NArith ZArith Bool Lia.
Import ListNotations.
Open Scope string_scope.
Open Scope list_scope.

(** ** Python strings

    A Python [str] is a sequence of Unicode code points: here a list of
    numbers.  The literals of the program are written as Rocq strings and
    turned into text with [text_of]. *)

Module PyStr.

Abbreviation char := N (only parsing).
Abbreviation text := (list N) (only parsing).

(** [str.isspace] on one code point, as CPython decides it: TAB to CR,
    the separators FS GS RS US, the blank, NEL (U+0085), the no-break
    space (U+00A0), U+1680, U+2000 to U+200A, the line and paragraph
    separators U+2028 and U+2029, U+202F, U+205F and U+3000. *)
Definition isspace (c : char) : bool :=
  ((9 <=? c) && (c <=? 13) || (28 <=? c) && (c <=? 32)
   || (c =? 133) || (c =? 160) || (c =? 5760)
   || (8192 <=? c) && (c <=? 8202)
   || (c =? 8232) || (c =? 8233) || (c =? 8239) || (c =? 8287)
   || (c =? 12288))%N.

Fixpoint lstrip (s : text) : text :=
  match s with
  | [] => []
  | c :: t => if isspace c then lstrip t else s
  end.

Fixpoint rstrip (s : text) : text :=
  match s with
  | [] => []
  | c :: t =>
      match rstrip t with
      | [] => if isspace c then [] else [c]
      | r => c :: r
      end
  end.

(** [s.strip()] *)
Definition strip (s : text) : text := rstrip (lstrip s).

(** [not s] for a string: true on the empty string only. *)
Definition is_empty (s : text) : bool :=
  match s with [] => true | _ => false end.

(** [s] begins with [p]. *)
Fixpoint startswith (p s : text) : bool :=
  match p with
  | [] => true
  | a :: p' =>
      match s with
      | [] => false
      | b :: s' => N.eqb a b && startswith p' s'
      end
  end.

(** [p in s] for strings: [p] occurs in [s] as a substring. *)
Fixpoint contains (p s : text) : bool :=
  startswith p s ||
  match s with
  | [] => false
  | _ :: t => contains p t
  end.

(** [s.split(sep, 1)] for a one-character separator: at most one split,
    at the first occurrence; the whole string alone when there is none. *)
Fixpoint split1 (sep : char) (s : text) : list text :=
  match s with
  | [] => [[]]
  | c :: t =>
      if N.eqb c sep then [[]; t]
      else match split1 sep t with
           | [a; b] => [c :: a; b]
           | _ => [s]
           end
  end.

(** The code points of [=] and [-]. *)
Definition equals_sign : char := 61%N.
Definition minus_sign : char := 45%N.

(** [s.replace('==', '-')]: every occurrence, left to right, without
    overlap. *)
Fixpoint replace_eqeq (s : text) : text :=
  match s with
  | [] => []
  | c :: t =>
      match t with
      | d :: u =>
          if N.eqb c equals_sign && N.eqb d equals_sign
          then minus_sign :: replace_eqeq u
          else c :: replace_eqeq t
      | [] => s
      end
  end.

Definition all_space (s : text) : bool := forallb isspace s.

(** [sep.join(parts)] *)
Fixpoint join (sep : text) (parts : list text) : text :=
  match parts with
  | [] => []
  | p :: rest =>
      match rest with
      | [] => p
      | _ => p ++ sep ++ join sep rest
      end
  end.

(** Equality of two texts. *)
Fixpoint eqb (a b : text) : bool :=
  match a, b with
  | [], [] => true
  | c :: a', d :: b' => N.eqb c d && eqb a' b'
  | _, _ => false
  end.

End PyStr.

(** A literal of the program as text: one code point per character. *)
Definition text_of (s : string) : PyStr.text :=
  map N_of_ascii (list_ascii_of_string s).

(** ** Exceptions

    The classes the program names in its [except] clauses, the ones its
    own statements raise, and two that are not instances of [Exception].
    An exception of a class that is not listed is recorded under its
    nearest listed ancestor ([AttributeError] for anything else below
    [Exception]). *)

Inductive exn_class :=
| SympifyError | TypeError | SyntaxError | NameError
| ValueError | IndexError | EOFError | AttributeError | NotImplementedError
| KeyboardInterrupt | SystemExit.

Definition exn_class_eqb (a b : exn_class) : bool :=
  match a, b with
  | SympifyError, SympifyError | TypeError, TypeError
  | SyntaxError, SyntaxError | NameError, NameError
  | ValueError, ValueError | IndexError, IndexError
  | EOFError, EOFError | AttributeError, AttributeError
  | NotImplementedError, NotImplementedError
  | KeyboardInterrupt, KeyboardInterrupt | SystemExit, SystemExit => true
  | _, _ => false
  end.

(** [issubclass]: SymPy declares [SympifyError] as a [ValueError]. *)
Definition issubclass (c base : exn_class) : bool :=
  exn_class_eqb c base ||
  match c, base with
  | SympifyError, ValueError => true
  | _, _ => false
  end.

(** Instances of [Exception]; the two others derive from [BaseException]
    only. *)
Definition is_Exception (c : exn_class) : bool :=
  match c with
  | KeyboardInterrupt | SystemExit => false
  | _ => true
  end.

Record exn := mkExn { cls : exn_class; msg : string }.

(** [except (C1, ..., Cn)] matches an instance of any of the classes. *)
Definition isinstance (e : exn) (classes : list exn_class) : bool :=
  existsb (issubclass (cls e)) classes.

Inductive result (A : Type) :=
| Ok (a : A)
| Raise (e : exn).
Arguments Ok {A} a.
Arguments Raise {A} e.

(** ** The libraries the program calls

    A call into a library returns a value or raises.  What [sympify]
    returns is any Python object, [None] included.  The attributes read
    off a library object ([is_FiniteSet], its truth value, [is_Float],
    ...), the conversions [float(s)] and [int(s)] of line 67, [np.isclose]
    and the formatting of what is printed are taken not to raise. *)

(** [fsolve(..., full_output=True)] returns [(x, infodict, ier, mesg)];
    the program never reads [infodict]. *)
Record fsolve_output (Num : Type) := mkFsolve {
  fs_x : list Num;
  fs_ier : Z;
  fs_mesg : string
}.
Arguments mkFsolve {Num}.
Arguments fs_x {Num}.
Arguments fs_ier {Num}.
Arguments fs_mesg {Num}.

Record Libraries := mkLibraries {
  Expr : Type;                       (* what [sympify] builds *)
  SymSet : Type;                     (* what [solveset] returns *)
  Num : Type;                        (* NumPy floating-point scalars *)
  sympify : PyStr.text -> result Expr;
  sub : Expr -> Expr -> result Expr; (* [lhs - rhs] *)
  solveset : Expr -> result SymSet;  (* [solveset(e, x, domain=S.Reals)] *)
  is_FiniteSet : SymSet -> bool;
  truth : SymSet -> bool;            (* [bool(s)] *)
  is_ConditionSet : SymSet -> bool;  (* [isinstance(s, ConditionSet)] *)
  is_EmptySet : SymSet -> bool;
  members : SymSet -> list Expr;     (* iteration over the set *)
  is_Float : Expr -> bool;
  is_Integer : Expr -> bool;
  to_float : Expr -> Num;            (* [float(s)] *)
  to_int : Expr -> Z;                (* [int(s)] *)
  lambdify : Expr -> result (Num -> result Num);
  fsolve : (Num -> result Num) -> Num -> result (fsolve_output Num);
  isclose : Num -> Num -> bool;      (* [np.isclose] *)
  num_0 : Num;                       (* the literal [0] *)
  num_1_0 : Num;                     (* the literal [1.0] *)
  is_None : Expr -> bool;            (* [e is None] *)
  (* [solveset] does not take [None] for an expression: it raises *)
  solveset_None : forall e, is_None e = true ->
                            exists x, solveset e = Raise x
}.

(** ** What a run leaves behind *)

Section Events.
Variable L : Libraries.

(** A member of the printed solution list. *)
Inductive pyval :=
| PyFloat (f : Num L)
| PyInt (z : Z)
| Sym (e : Expr L).

(** What [print] is given.  [Text] is a literal of the program; the other
    constructors are its f-strings and objects, with the values that are
    interpolated. *)
Inductive message :=
| Text (s : string)
| SolutionsList (l : list pyval)
| SetRepr (s : SymSet L)
| ErrorParsing (e : exn)
| UnexpectedSymbolic (e : exn)
| InitialGuess (g : Num L)
| NumericalFound (v : Num L)
| ResidualMismatch (v r : Num L)
| SolverMessage (m : string)
| EvalError (e : exn)
| UnexpectedNumerical (e : exn).

(** Calls that leave the program. *)
Inductive call :=
| CInput (prompt : string)
| CSympify (s : PyStr.text)
| CSolveset (e : Expr L)
| CLambdify (e : Expr L)
| CFsolve (guess : Num L)
| CNumericFunc (v : Num L).

Inductive event :=
| Print (m : message)
| Call (c : call).

(** The local variables that outlive the [try] blocks. *)
Record locals := mkLocals {
  equation_expr : option (Expr L);
  symbolic_solutions : option (SymSet L);
  numerical_solution_val : option (Num L)
}.

End Events.

Arguments PyFloat {L}.
Arguments PyInt {L}.
Arguments Sym {L}.
Arguments Text {L}.
Arguments SolutionsList {L}.
Arguments SetRepr {L}.
Arguments ErrorParsing {L}.
Arguments UnexpectedSymbolic {L}.
Arguments InitialGuess {L}.
Arguments NumericalFound {L}.
Arguments ResidualMismatch {L}.
Arguments SolverMessage {L}.
Arguments EvalError {L}.
Arguments UnexpectedNumerical {L}.
Arguments CInput {L}.
Arguments CSympify {L}.
Arguments CSolveset {L}.
Arguments CLambdify {L}.
Arguments CFsolve {L}.
Arguments CNumericFunc {L}.
Arguments Print {L}.
Arguments Call {L}.
Arguments mkLocals {L}.
Arguments equation_expr {L}.
Arguments symbolic_solutions {L}.
Arguments numerical_solution_val {L}.

(** ** The monad: local variables, a trace, exceptions

    A statement takes the local variables and gives its outcome, the
    local variables afterwards (also when it raises: an assignment made
    before the exception stays) and the events it produced. *)

Definition M (L : Libraries) (A : Type) : Type :=
  locals L -> result A * locals L * list (event L).

Section Monad.
Context {L : Libraries}.

Definition ret {A} (a : A) : M L A := fun st => (Ok a, st, []).

Definition raise {A} (e : exn) : M L A := fun st => (Raise e, st, []).

Definition bind {A B} (m : M L A) (k : A -> M L B) : M L B :=
  fun st =>
    match m st with
    | (Ok a, st1, t1) =>
        match k a st1 with
        | (r, st2, t2) => (r, st2, t1 ++ t2)
        end
    | (Raise e, st1, t1) => (Raise e, st1, t1)
    end.

Definition emit (ev : event L) : M L unit := fun st => (Ok tt, st, [ev]).

Definition print (m : message L) : M L unit := emit (Print m).

(** A library call: the call is recorded, then its outcome is the
    statement's. *)
Definition lib {A} (c : call L) (r : result A) : M L A :=
  fun st => (r, st, [Call c]).

Definition get_locals : M L (locals L) := fun st => (Ok st, st, []).

Definition set_equation_expr (v : option (Expr L)) : M L unit :=
  fun st => (Ok tt, mkLocals v (symbolic_solutions st) (numerical_solution_val st), []).

Definition set_symbolic_solutions (v : option (SymSet L)) : M L unit :=
  fun st => (Ok tt, mkLocals (equation_expr st) v (numerical_solution_val st), []).

Definition set_numerical_solution_val (v : option (Num L)) : M L unit :=
  fun st => (Ok tt, mkLocals (equation_expr st) (symbolic_solutions st) v, []).

(** [try: body  except ...:]  The handlers are one function: the first
    clause that matches the exception gives the statement to run, [None]
    when no clause matches and the exception goes on. *)
Definition try_except {A} (body : M L A) (handlers : exn -> option (M L A)) : M L A :=
  fun st =>
    match body st with
    | (Ok a, st1, t1) => (Ok a, st1, t1)
    | (Raise e, st1, t1) =>
        match handlers e with
        | Some h =>
            match h st1 with
            | (r, st2, t2) => (r, st2, t1 ++ t2)
            end
        | None => (Raise e, st1, t1)
        end
    end.

End Monad.

Declare Scope py_scope.
Delimit Scope py_scope with py.
Notation "x <- m ;; k" := (bind m (fun x => k))
  (at level 61, m at next level, right associativity) : py_scope.
Notation "m ;; k" := (bind m (fun _ => k))
  (at level 61, right associativity) : py_scope.

(** ** [solve_for_x] *)

Definition nl : string := String (ascii_of_nat 10) EmptyString.

(** Lines 11-25: the usage banner. *)
Definition banner : list string :=
  [ "------------------------------------";
    "Equation Solver for 'x'";
    "------------------------------------";
    "Enter the equation. Use Python/SymPy syntax:";
    "  - Use 'x' as the variable.";
    "  - Use '**' for exponentiation (e.g., x**2 for x squared).";
    "  - Use functions like sympy.sqrt(), sympy.sin(), sympy.exp(), sympy.log(), sympy.factorial()";
    "    (or pre-calculate numbers like 3! = 6 before entering).";
    "  - Examples: ";
    "    1 + x = 4";
    "    x**2 - 5*x + 6 = 0";
    "    sympy.sqrt(x) - 5 = 0";
    "    sympy.Eq(sympy.sqrt((x+4)**5 - x + sympy.factorial(3)), 50)";
    "    sqrt((x+4)**5 - x + 6) - 50 = 0";
    "------------------------------------" ].

(** Lines 132-134. *)
Definition closing : list string :=
  [ (nl ++ "------------------------------------")%string;
    "Solver finished.";
    "------------------------------------" ].

Definition symbolic_header : string :=
  (nl ++ "--- Attempting Symbolic Solution (Exact) ---")%string.

Definition numerical_header : string :=
  (nl ++ "--- Attempting Numerical Solution (Approximate) ---")%string.

Section Pipeline.
Context {L : Libraries}.
Open Scope py_scope.

Fixpoint print_lines (l : list string) : M L unit :=
  match l with
  | [] => ret tt
  | s :: t => print (Text s) ;; print_lines t
  end.

(** [input(prompt)]: the line typed, or the exception the read ends in
    ([EOFError] when standard input is at its end). *)
Definition input (prompt : string) (stdin : result PyStr.text)
  : M L PyStr.text :=
  lib (CInput prompt) stdin.

(** An operation of a library object that is no call of its own in the
    trace ([lhs - rhs], [numerical_solution[0]]). *)
Definition lift {A} (r : result A) : M L A := fun st => (r, st, []).

(** What the variable [equation_expr] holds after an object is assigned
    to it: in the model [None] stands for Python's [None], so an object
    that is [None] is stored as [None]. *)
Definition py_value (e : Expr L) : option (Expr L) :=
  if is_None L e then None else Some e.

(** Lines 46-58: from the text to the expression that must be zero.  The
    object is assigned to [equation_expr] and handed on. *)
Definition parse_equation (equation_str : PyStr.text) : M L (Expr L) :=
  if PyStr.contains (text_of "=") equation_str
     && negb (PyStr.contains (text_of "==") equation_str) then
    match PyStr.split1 PyStr.equals_sign equation_str with
    | [lhs_str; rhs_str] =>
        lhs <- lib (CSympify lhs_str) (sympify L lhs_str) ;;
        rhs <- lib (CSympify rhs_str) (sympify L rhs_str) ;;
        d <- lift (sub L lhs rhs) ;;
        set_equation_expr (py_value d) ;;
        ret d
    | _ => raise (mkExn ValueError "not enough values to unpack (expected 2, got 1)")
    end
  else
    let equation_str_expr := PyStr.replace_eqeq equation_str in
    e <- lib (CSympify equation_str_expr) (sympify L equation_str_expr) ;;
    set_equation_expr (py_value e) ;;
    ret e.

(** Line 67: [float(s) if s.is_Float else int(s) if s.is_Integer else s]. *)
Definition to_python (s : Expr L) : pyval L :=
  if is_Float L s then PyFloat (to_float L s)
  else if is_Integer L s then PyInt (to_int L s)
  else Sym s.

(** Lines 64-82: the report on what [solveset] returned. *)
Definition report_symbolic (s : SymSet L) : M L unit :=
  if is_FiniteSet L s && truth L s then
    print (Text "Symbolic Solution(s) found:") ;;
    let solutions_list := map to_python (members L s) in
    print (SolutionsList solutions_list)
  else if is_ConditionSet L s then
    print (Text "Symbolic solver returned a conditional solution set:") ;;
    print (SetRepr s) ;;
    print (Text "This often means numerical methods are needed for specific values.")
  else if is_EmptySet L s then
    print (Text "Symbolic solver found no real solutions.")
  else
    print (Text "Symbolic solver returned a non-finite set (e.g., an interval):") ;;
    print (SetRepr s).

(** Lines 42-82: the body of the first [try]. *)
Definition symbolic_body (equation_str : PyStr.text) : M L unit :=
  e <- parse_equation equation_str ;;
  s <- lib (CSolveset e) (solveset L e) ;;
  set_symbolic_solutions (Some s) ;;
  report_symbolic s.

(** Lines 85-91: the two [except] clauses of the first [try]. *)
Definition symbolic_handlers (e : exn) : option (M L unit) :=
  if isinstance e [SympifyError; TypeError; SyntaxError] then
    Some (print (ErrorParsing e) ;;
          print (Text "Please check syntax (use '**' for powers, ensure balanced parentheses).") ;;
          set_equation_expr None)
  else if is_Exception (cls e) then
    Some (print (UnexpectedSymbolic e))
  else None.

(** Line 96: the condition under which the numerical stage runs
    ([equation_expr is not None and (not symbolic_solutions or not
    symbolic_solutions.is_FiniteSet)]). *)
Definition numerical_gate (st : locals L) : bool :=
  match equation_expr st with
  | None => false
  | Some _ =>
      match symbolic_solutions st with
      | None => true
      | Some s => negb (truth L s) || negb (is_FiniteSet L s)
      end
  end.

(** [a[0]] on the array [fsolve] returns. *)
Definition index0 (a : list (Num L)) : result (Num L) :=
  match a with
  | v :: _ => Ok v
  | [] => Raise (mkExn IndexError "index 0 is out of bounds for axis 0 with size 0")
  end.

(** Lines 99-122: the body of the second [try]. *)
Definition numerical_body (expr : Expr L) : M L unit :=
  numeric_func <- lib (CLambdify expr) (lambdify L expr) ;;
  let initial_guess := num_1_0 L in
  print (InitialGuess initial_guess) ;;
  print (Text "(If solver fails or finds an unexpected root, try changing this guess)") ;;
  out <- lib (CFsolve initial_guess) (fsolve L numeric_func initial_guess) ;;
  if (fs_ier out =? 1)%Z then
    solution_val <- lift (index0 (fs_x out)) ;;
    r <- lib (CNumericFunc solution_val) (numeric_func solution_val) ;;
    if isclose L r (num_0 L) then
      print (NumericalFound solution_val) ;;
      set_numerical_solution_val (Some solution_val)
    else
      r' <- lib (CNumericFunc solution_val) (numeric_func solution_val) ;;
      print (ResidualMismatch solution_val r')
  else
    print (Text "Numerical solver did not converge or failed.") ;;
    print (SolverMessage (fs_mesg out)).

(** Lines 124-130: the three [except] clauses of the second [try]. *)
Definition numerical_handlers (e : exn) : option (M L unit) :=
  if isinstance e [NameError] then
    Some (print (Text "Error: SciPy library not found. Please install it (`pip install scipy`)."))
  else if isinstance e [TypeError] then
    Some (print (EvalError e) ;;
          print (Text "This can happen if the expression still contains symbolic parts or uses unsupported functions."))
  else if is_Exception (cls e) then
    Some (print (UnexpectedNumerical e))
  else None.

(** Lines 93-130. *)
Definition numerical_stage : M L unit :=
  st <- get_locals ;;
  if numerical_gate st then
    print (Text numerical_header) ;;
    match equation_expr st with
    | Some expr => try_except (numerical_body expr) numerical_handlers
    | None => ret tt
    end
  else ret tt.

(** Lines 6-134.  [stdin] is what the one read of standard input gives. *)
Definition solve_for_x (stdin : result PyStr.text) : M L unit :=
  print_lines banner ;;
  line <- input "Enter equation: " stdin ;;
  let equation_str := PyStr.strip line in
  if PyStr.is_empty equation_str then
    print (Text "No equation entered.")
  else
    set_symbolic_solutions None ;;
    set_numerical_solution_val None ;;
    set_equation_expr None ;;
    print (Text symbolic_header) ;;
    try_except (symbolic_body equation_str) symbolic_handlers ;;
    numerical_stage ;;
    print_lines closing.

End Pipeline.

(** A run of the program: no local variable is set when it starts. *)
Definition run (L : Libraries) (stdin : result PyStr.text)
  : result unit * locals L * list (event L) :=
  solve_for_x stdin (mkLocals None None None).

Definition outcome {L} (r : result unit * locals L * list (event L)) : result unit :=
  fst (fst r).

Definition final_locals {L} (r : result unit * locals L * list (event L)) : locals L :=
  snd (fst r).

Definition trace {L} (r : result unit * locals L * list (event L)) : list (event L) :=
  snd r.

(** ** Reading a run *)

Section Observations.
Context {L : Libraries}.

Definition init : locals L := mkLocals None None None.

Definition events_of_lines (l : list string) : list (event L) :=
  map (fun s => Print (Text s)) l.

(** Everything a run produces before the first [try]. *)
Definition preamble : list (event L) :=
  events_of_lines banner ++
  [Call (CInput "Enter equation: "); Print (Text symbolic_header)].

(** The numerical stage opens with its header (line 97) and nothing else
    prints it. *)
Definition is_numerical_header (ev : event L) : bool :=
  match ev with
  | Print (Text s) => String.eqb s numerical_header
  | _ => false
  end.

Definition numerical_invoked (t : list (event L)) : bool :=
  existsb is_numerical_header t.

(** The calls that parse or solve. *)
Definition is_solving_call (ev : event L) : bool :=
  match ev with
  | Call (CSympify _) | Call (CSolveset _) | Call (CLambdify _)
  | Call (CFsolve _) | Call (CNumericFunc _) => true
  | _ => false
  end.

Definition solving_calls (t : list (event L)) : list (event L) :=
  filter is_solving_call t.

Definition is_numerical_call (ev : event L) : bool :=
  match ev with
  | Call (CLambdify _) | Call (CFsolve _) | Call (CNumericFunc _) => true
  | _ => false
  end.

(** The values reported as numerical solution (line 116). *)
Definition numerical_found (t : list (event L)) : list (Num L) :=
  flat_map (fun ev => match ev with
                      | Print (NumericalFound v) => [v]
                      | _ => []
                      end) t.

(** The discrepancies reported (line 119): value and residual. *)
Definition residual_mismatches (t : list (event L)) : list (Num L * Num L) :=
  flat_map (fun ev => match ev with
                      | Print (ResidualMismatch v r) => [(v, r)]
                      | _ => []
                      end) t.

(** The points at which the program itself evaluates [numeric_func]. *)
Definition examined (t : list (event L)) : list (Num L) :=
  flat_map (fun ev => match ev with
                      | Call (CNumericFunc v) => [v]
                      | _ => []
                      end) t.

(** The exceptions reported by each [except] clause. *)
Definition parse_errors (t : list (event L)) : list exn :=
  flat_map (fun ev => match ev with
                      | Print (ErrorParsing e) => [e]
                      | _ => []
                      end) t.

Definition unexpected_symbolic (t : list (event L)) : list exn :=
  flat_map (fun ev => match ev with
                      | Print (UnexpectedSymbolic e) => [e]
                      | _ => []
                      end) t.

(** The solution lists printed (line 68). *)
Definition solution_lists (t : list (event L)) : list (list (pyval L)) :=
  flat_map (fun ev => match ev with
                      | Print (SolutionsList l) => [l]
                      | _ => []
                      end) t.

Definition is_sympify_call (ev : event L) : bool :=
  match ev with
  | Call (CSympify _) => true
  | _ => false
  end.

(** Sequencing of outcomes, without trace. *)
Definition rbind {A B} (r : result A) (k : A -> result B) : result B :=
  match r with
  | Ok a => k a
  | Raise e => Raise e
  end.

(** Lines 46-58 on the stripped text: their outcome and the calls to
    [sympify] they make. *)
Definition parse_result (s : PyStr.text) : result (Expr L) :=
  fst (fst (parse_equation s init)).

Definition parse_calls (s : PyStr.text) : list (event L) :=
  snd (parse_equation s init).

(** The Input Normalizer as a function of the text typed (lines 27 and
    46-58). *)
Definition normalize (text : PyStr.text) : result (Expr L) :=
  parse_result (PyStr.strip text).

Definition normalize_calls (text : PyStr.text) : list (event L) :=
  parse_calls (PyStr.strip text).

(** What lines 64-82 print for a set. *)
Definition report_events (s : SymSet L) : list (event L) :=
  snd (report_symbolic s init).

(** The two [try] statements. *)
Definition symbolic_try (s : PyStr.text)
  : result unit * locals L * list (event L) :=
  try_except (symbolic_body s) symbolic_handlers init.

Definition numerical_try (e : Expr L) (st : locals L)
  : result unit * locals L * list (event L) :=
  try_except (numerical_body e) numerical_handlers st.

(** The classification of lines 64-82. *)
Inductive shape := Finite | Conditional | Empty | NonFinite.

Definition classify (s : SymSet L) : shape :=
  if is_FiniteSet L s && truth L s then Finite
  else if is_ConditionSet L s then Conditional
  else if is_EmptySet L s then Empty
  else NonFinite.

(** The first [except] clause of the symbolic stage matches. *)
Definition is_parse_class (e : exn) : bool :=
  isinstance e [SympifyError; TypeError; SyntaxError].

(** What the first [try] statement does with an exception raised in its
    body, given the local variables and the trace at that point. *)
Definition handled (x : exn) (st : locals L) (t : list (event L))
  : result unit * locals L * list (event L) :=
  if is_parse_class x then
    (Ok tt,
     mkLocals None (symbolic_solutions st) (numerical_solution_val st),
     t ++ [Print (ErrorParsing x);
           Print (Text "Please check syntax (use '**' for powers, ensure balanced parentheses).")])
  else if is_Exception (cls x) then
    (Ok tt, st, t ++ [Print (UnexpectedSymbolic x)])
  else (Raise x, st, t).

(** The same for the second [try] statement. *)
Definition numerical_handled (x : exn) (st : locals L) (t : list (event L))
  : result unit * locals L * list (event L) :=
  if isinstance x [NameError] then
    (Ok tt, st,
     t ++ [Print (Text "Error: SciPy library not found. Please install it (`pip install scipy`).")])
  else if isinstance x [TypeError] then
    (Ok tt, st,
     t ++ [Print (EvalError x);
           Print (Text "This can happen if the expression still contains symbolic parts or uses unsupported functions.")])
  else if is_Exception (cls x) then
    (Ok tt, st, t ++ [Print (UnexpectedNumerical x)])
  else (Raise x, st, t).

(** The events of lines 101-110, up to and with the call to [fsolve]. *)
Definition numerical_prefix (e : Expr L) : list (event L) :=
  [Call (CLambdify e); Print (InitialGuess (num_1_0 L));
   Print (Text "(If solver fails or finds an unexpected root, try changing this guess)");
   Call (CFsolve (num_1_0 L))].

(** The condition of line 96, read off what the libraries returned for
    the stripped text [s]: the text was parsed to an object that is not
    [None], and either [solveset] returned a set that is not a non-empty
    finite one, or it raised an exception that the second [except] clause
    took. *)
Definition fallback_due (s : PyStr.text) : bool :=
  match parse_result s with
  | Ok e =>
      negb (is_None L e) &&
      match solveset L e with
      | Ok sol => negb (is_FiniteSet L sol && truth L sol)
      | Raise x => negb (is_parse_class x) && is_Exception (cls x)
      end
  | Raise _ => false
  end.

(** The exception of the symbolic stage on a line, if any: the one that
    ended the parse, or the one [solveset] raised. *)
Definition symbolic_failure (line : PyStr.text) : option exn :=
  match normalize line with
  | Raise x => Some x
  | Ok e =>
      match solveset L e with
      | Raise x => Some x
      | Ok _ => None
      end
  end.

(** The normalization of a member in the order the specification gives:
    an integer first, then a float, otherwise the member as it is. *)
Definition normalize_member_spec (s : Expr L) : pyval L :=
  if is_Integer L s then PyInt (to_int L s)
  else if is_Float L s then PyFloat (to_float L s)
  else Sym s.

End Observations.

Arguments parse_result L s : clear implicits.
Arguments parse_calls L s : clear implicits.
Arguments normalize L text : clear implicits.
Arguments normalize_calls L text : clear implicits.
Arguments symbolic_try L s : clear implicits.
Arguments fallback_due L s : clear implicits.
Arguments symbolic_failure L line : clear implicits.

(** ** A small instance of the libraries

    Enough of SymPy, SciPy and NumPy to run the program on a few lines:
    expressions are kept as the text parsed, floating-point numbers as
    their decimal writing. *)

Module Sample.

Inductive expr :=
| Parsed (src : string)
| IntLit (z : Z)
| FloatLit (digits : string)
| Diff (a b : expr)
| ModuleObj (name : string)
| NoneObj.

Inductive set_ :=
| FiniteSet (l : list expr)
| EmptySet
| ConditionSet (e : expr)
| Interval (descr : string).

(** The text as a Rocq string, for code points below 256. *)
Definition show (t : PyStr.text) : string :=
  string_of_list_ascii (map ascii_of_N t).

Definition sympify (s : PyStr.text) : result expr :=
  let t := show (PyStr.strip s) in
  if String.eqb t "4" then Ok (IntLit 4)
  else if String.eqb t "0" then Ok (IntLit 0)
  else if String.eqb t "None" then Ok NoneObj
  else if String.eqb t "sympy" then Ok (ModuleObj "sympy")
  else if String.eqb t "x.foo" then
    Raise (mkExn AttributeError "'Symbol' object has no attribute 'foo'")
  else if String.eqb t "(x" then
    Raise (mkExn SympifyError "could not parse '(x'")
  else Ok (Parsed t).

Definition sub (a b : expr) : result expr := Ok (Diff a b).

Definition solveset (e : expr) : result set_ :=
  match e with
  | NoneObj => Raise (mkExn ValueError "None is not a valid SymPy expression")
  | ModuleObj _ => Raise (mkExn SympifyError "SympifyError: <module 'sympy'>")
  | Diff (Parsed p) (IntLit 4) =>
      if String.eqb p "1 + x" then Ok (FiniteSet [IntLit 3])
      else Ok (ConditionSet e)
  | Diff (Parsed p) (IntLit 0) =>
      if String.eqb p "x**2 - 5*x + 6" then Ok (FiniteSet [IntLit 2; IntLit 3])
      else if String.eqb p "x - 2.5" then Ok (FiniteSet [FloatLit "2.5"])
      else if String.eqb p "x**2 + 1" then Ok EmptySet
      else if String.eqb p "sympy.sin(x)" then Ok (Interval "ImageSet")
      else Ok (ConditionSet e)
  | _ => Ok (ConditionSet e)
  end.

Definition is_None (e : expr) : bool :=
  match e with NoneObj => true | _ => false end.

Definition is_FiniteSet (s : set_) : bool :=
  match s with FiniteSet _ | EmptySet => true | _ => false end.

Definition truth (s : set_) : bool :=
  match s with
  | FiniteSet l => negb (Nat.eqb (length l) 0)
  | EmptySet => false
  | _ => true
  end.

Definition is_ConditionSet (s : set_) : bool :=
  match s with ConditionSet _ => true | _ => false end.

Definition is_EmptySet (s : set_) : bool :=
  match s with EmptySet => true | _ => false end.

Definition members (s : set_) : list expr :=
  match s with FiniteSet l => l | _ => [] end.

Definition is_Float (e : expr) : bool :=
  match e with FloatLit _ => true | _ => false end.

Definition is_Integer (e : expr) : bool :=
  match e with IntLit _ => true | _ => false end.

Definition to_float (e : expr) : string :=
  match e with FloatLit d => d | _ => "nan" end.

Definition to_int (e : expr) : Z :=
  match e with IntLit z => z | _ => 0%Z end.

(** The residual of [cos(x) - x] at the two points the runs below visit. *)
Definition numeric_func (v : string) : result string :=
  if String.eqb v "0.7390851332151607" then Ok "0.0"
  else Ok "-0.45969769413186023".

Definition lambdify (e : expr) : result (string -> result string) :=
  Ok numeric_func.

Definition fsolve (f : string -> result string) (guess : string)
  : result (fsolve_output string) :=
  Ok (mkFsolve ["0.7390851332151607"] 1%Z "The solution converged.").

Definition isclose (a b : string) : bool :=
  String.eqb b "0" && (String.eqb a "0" || String.eqb a "0.0").

(** [solveset] raises on [None]. *)
Definition solveset_None (e : expr)
  : is_None e = true -> exists x, solveset e = Raise x :=
  match e as e0 return is_None e0 = true -> exists x, solveset e0 = Raise x with
  | NoneObj => fun _ => ex_intro _ _ eq_refl
  | _ => fun H => match Bool.diff_false_true H with end
  end.

Definition raising_None (x : exn) (e : expr)
  : is_None e = true -> exists y, (fun _ : expr => @Raise set_ x) e = Raise y :=
  fun _ => ex_intro _ x eq_refl.

Definition libs : Libraries :=
  mkLibraries expr set_ string sympify sub solveset
    is_FiniteSet truth is_ConditionSet is_EmptySet members
    is_Float is_Integer to_float to_int
    lambdify fsolve isclose "0" "1.0" is_None solveset_None.

(** The same, with a [solveset] that raises on every expression. *)
Definition libs_solveset_raising (e : exn) : Libraries :=
  mkLibraries expr set_ string sympify sub (fun _ => Raise e)
    is_FiniteSet truth is_ConditionSet is_EmptySet members
    is_Float is_Integer to_float to_int
    lambdify fsolve isclose "0" "1.0" is_None (raising_None e).

(** The same, with a root-finder that stops at the initial guess and
    still reports convergence. *)
Definition libs_bad_root : Libraries :=
  mkLibraries expr set_ string sympify sub solveset
    is_FiniteSet truth is_ConditionSet is_EmptySet members
    is_Float is_Integer to_float to_int
    lambdify
    (fun _ guess => Ok (mkFsolve [guess] 1%Z "The solution converged."))
    isclose "0" "1.0" is_None solveset_None.

(** The same, with a root-finder that gives up ([ier = 5]). *)
Definition libs_not_converging : Libraries :=
  mkLibraries expr set_ string sympify sub solveset
    is_FiniteSet truth is_ConditionSet is_EmptySet members
    is_Float is_Integer to_float to_int
    lambdify
    (fun _ guess =>
       Ok (mkFsolve [guess] 5%Z "The iteration is not making good progress."))
    isclose "0" "1.0" is_None solveset_None.

(** The same, with a [lambdify] that raises. *)
Definition libs_lambdify_raising (e : exn) : Libraries :=
  mkLibraries expr set_ string sympify sub solveset
    is_FiniteSet truth is_ConditionSet is_EmptySet members
    is_Float is_Integer to_float to_int
    (fun _ => Raise e) fsolve isclose "0" "1.0" is_None solveset_None.

End Sample.

(** ** More readings of a run *)

Section Calls.
Context {L : Libraries}.

(** The arguments of the calls of a trace, library function by library
    function, in the order of the calls. *)
Definition sympified (t : list (event L)) : list PyStr.text :=
  flat_map (fun ev => match ev with
                      | Call (CSympify s) => [s]
                      | _ => []
                      end) t.

Definition solved (t : list (event L)) : list (Expr L) :=
  flat_map (fun ev => match ev with
                      | Call (CSolveset e) => [e]
                      | _ => []
                      end) t.

Definition lambdified (t : list (event L)) : list (Expr L) :=
  flat_map (fun ev => match ev with
                      | Call (CLambdify e) => [e]
                      | _ => []
                      end) t.

Definition fsolve_guesses (t : list (event L)) : list (Num L) :=
  flat_map (fun ev => match ev with
                      | Call (CFsolve g) => [g]
                      | _ => []
                      end) t.

(** The literal lines printed. *)
Definition texts (t : list (event L)) : list string :=
  flat_map (fun ev => match ev with
                      | Print (Text s) => [s]
                      | _ => []
                      end) t.

(** The sets printed (lines 74 and 82). *)
Definition sets_printed (t : list (event L)) : list (SymSet L) :=
  flat_map (fun ev => match ev with
                      | Print (SetRepr s) => [s]
                      | _ => []
                      end) t.

(** The exceptions the second [try] reports with their text. *)
Definition numerical_errors (t : list (event L)) : list exn :=
  flat_map (fun ev => match ev with
                      | Print (EvalError e) => [e]
                      | Print (UnexpectedNumerical e) => [e]
                      | _ => []
                      end) t.

(** The diagnostic of [fsolve] printed (line 122). *)
Definition solver_messages (t : list (event L)) : list string :=
  flat_map (fun ev => match ev with
                      | Print (SolverMessage m) => [m]
                      | _ => []
                      end) t.

End Calls.

Section Failure.
Context {L : Libraries}.

(** The first exception of lines 101-119 on the expression [e], if any:
    from [lambdify], from [fsolve], from the indexing of its result, or
    from the function at the candidate. *)
Definition numerical_failure (e : Expr L) : option exn :=
  match lambdify L e with
  | Raise x => Some x
  | Ok f =>
      match fsolve L f (num_1_0 L) with
      | Raise x => Some x
      | Ok out =>
          if (fs_ier out =? 1)%Z then
            match index0 (fs_x out) with
            | Raise x => Some x
            | Ok v =>
                match f v with
                | Raise x => Some x
                | Ok _ => None
                end
            end
          else None
      end
  end.

End Failure.

(** The literal lines of the two stages. *)
Definition symbolic_literals : list string :=
  [ "Symbolic Solution(s) found:";
    "Symbolic solver returned a conditional solution set:";
    "This often means numerical methods are needed for specific values.";
    "Symbolic solver found no real solutions.";
    "Symbolic solver returned a non-finite set (e.g., an interval):";
    "Please check syntax (use '**' for powers, ensure balanced parentheses)." ].

Definition numerical_literals : list string :=
  [ "(If solver fails or finds an unexpected root, try changing this guess)";
    "Numerical solver did not converge or failed.";
    "Error: SciPy library not found. Please install it (`pip install scipy`).";
    "This can happen if the expression still contains symbolic parts or uses unsupported functions." ].

(** * Properties *)

(** ** Strings *)

Section StringFacts.
Import PyStr.

Lemma isspace_eq_sign : isspace equals_sign = false.
Proof. reflexivity. Qed.

Lemma all_space_app (a b : text) :
  all_space (a ++ b) = all_space a && all_space b.
Proof. apply forallb_app. Qed.

Lemma lstrip_decomp (s : text) :
  exists a, s = a ++ lstrip s /\ all_space a = true.
Proof.
  induction s as [|c t [a [E Ha]]]; simpl.
  - exists []. split; reflexivity.
  - destruct (isspace c) eqn:Hc.
    + exists (c :: a). split.
      * simpl. now rewrite <- E.
      * unfold all_space in *. simpl. now rewrite Hc.
    + exists []. split; reflexivity.
Qed.

Lemma rstrip_decomp (s : text) :
  exists b, s = rstrip s ++ b /\ all_space b = true.
Proof.
  induction s as [|c t [b [E Hb]]]; simpl.
  - exists []. split; reflexivity.
  - destruct (rstrip t) as [|d r] eqn:Hr.
    + simpl in E. destruct (isspace c) eqn:Hc.
      * exists (c :: b). split.
        -- simpl. now rewrite <- E.
        -- unfold all_space in *. simpl. now rewrite Hc.
      * exists b. split; [simpl; now rewrite <- E | assumption].
    + exists b. split; [|assumption].
      simpl. simpl in E. now rewrite <- E.
Qed.

Lemma strip_decomp (s : text) :
  exists a b, s = a ++ strip s ++ b
              /\ all_space a = true /\ all_space b = true.
Proof.
  destruct (lstrip_decomp s) as [a [Ea Ha]].
  destruct (rstrip_decomp (lstrip s)) as [b [Eb Hb]].
  exists a, b. unfold strip. rewrite <- Eb. auto.
Qed.

Lemma lstrip_all_space (s : text) :
  all_space s = true -> lstrip s = [].
Proof.
  unfold all_space. induction s as [|c t IH]; simpl; [reflexivity|].
  intros H. apply andb_true_iff in H as [Hc Ht]. rewrite Hc. auto.
Qed.

Lemma lstrip_head (s : text) c t :
  lstrip s = c :: t -> isspace c = false.
Proof.
  induction s as [|d u IH]; simpl; [discriminate|].
  destruct (isspace d) eqn:Hd; [assumption|].
  intros E. injection E as -> _. assumption.
Qed.

Lemma rstrip_empty (s : text) :
  rstrip s = [] -> all_space s = true.
Proof.
  unfold all_space. induction s as [|c t IH]; simpl; [reflexivity|].
  destruct (rstrip t) eqn:Hr; [|discriminate].
  destruct (isspace c); [|discriminate].
  intros _. simpl. now apply IH.
Qed.

Lemma strip_empty_iff (s : text) :
  strip s = [] <-> all_space s = true.
Proof.
  split.
  - intros H. unfold strip in H. apply rstrip_empty in H.
    destruct (lstrip s) as [|c t] eqn:E.
    + destruct (lstrip_decomp s) as [a [Ea Ha]].
      rewrite E in Ea. rewrite Ea, all_space_app, Ha. reflexivity.
    + apply lstrip_head in E. unfold all_space in H. simpl in H.
      rewrite E in H. discriminate.
  - intros H. unfold strip. now rewrite lstrip_all_space.
Qed.

Lemma is_empty_strip (s : text) :
  is_empty (strip s) = all_space s.
Proof.
  destruct (all_space s) eqn:H.
  - apply strip_empty_iff in H. now rewrite H.
  - destruct (strip s) eqn:E; [|reflexivity].
    apply strip_empty_iff in E. congruence.
Qed.

(** *** Substrings *)

Lemma startswith_app (p s b : text) :
  startswith p s = true -> startswith p (s ++ b) = true.
Proof.
  revert s. induction p as [|c p IH]; intros s; simpl; [reflexivity|].
  destruct s as [|d s]; simpl; [discriminate|].
  destruct (N.eqb c d); simpl; [apply IH|discriminate].
Qed.

Lemma contains_app_r (p s b : text) :
  contains p s = true -> contains p (s ++ b) = true.
Proof.
  induction s as [|c s IH]; simpl.
  - rewrite orb_false_r. intros H.
    destruct p; [|discriminate]. destruct b; reflexivity.
  - intros H. apply orb_true_iff in H as [H|H].
    + change (c :: s ++ b) with ((c :: s) ++ b).
      rewrite (startswith_app _ _ _ H). reflexivity.
    + rewrite (IH H). apply orb_true_r.
Qed.

Lemma contains_app_l (p a s : text) :
  contains p s = true -> contains p (a ++ s) = true.
Proof.
  induction a as [|c a IH]; simpl; [auto|].
  intros H. rewrite (IH H). apply orb_true_r.
Qed.

(** A substring of the stripped text is a substring of the text. *)
Lemma contains_strip (p s : text) :
  contains p (strip s) = true -> contains p s = true.
Proof.
  intros H. destruct (strip_decomp s) as [a [b [E _]]].
  rewrite E. apply contains_app_l, contains_app_r, H.
Qed.

Lemma contains_char (c : char) (s : text) :
  contains [c] s = existsb (N.eqb c) s.
Proof.
  induction s as [|d s IH]; simpl; [reflexivity|].
  rewrite <- IH. now rewrite andb_true_r.
Qed.

Lemma all_space_no_char (c : char) (a : text) :
  isspace c = false -> all_space a = true ->
  existsb (N.eqb c) a = false.
Proof.
  unfold all_space. intros Hc. induction a as [|d a IH]; simpl; [reflexivity|].
  intros H. apply andb_true_iff in H as [Hd Ha]. rewrite (IH Ha), orb_false_r.
  apply N.eqb_neq. congruence.
Qed.

(** Stripping removes no character that is not white space. *)
Lemma contains_char_strip (c : char) (s : text) :
  isspace c = false ->
  contains [c] (strip s) = contains [c] s.
Proof.
  intros Hc. destruct (strip_decomp s) as [a [b [E [Ha Hb]]]].
  rewrite E at 2. rewrite !contains_char, !existsb_app.
  rewrite (all_space_no_char c a Hc Ha), (all_space_no_char c b Hc Hb).
  now rewrite orb_false_r.
Qed.

End StringFacts.

Section SplitReplace.
Import PyStr.

Lemma split1_found (c : char) (s : text) :
  contains [c] s = true ->
  exists l r, split1 c s = [l; r]
              /\ s = l ++ c :: r
              /\ contains [c] l = false.
Proof.
  induction s as [|d t IH]; simpl; [discriminate|].
  rewrite andb_true_r. rewrite (N.eqb_sym d c).
  destruct (N.eqb c d) eqn:E; simpl.
  - intros _. apply N.eqb_eq in E as ->.
    exists [], t. repeat split.
  - intros H. destruct (IH H) as [l [r [Hs [Ht Hl]]]].
    exists (d :: l), r. rewrite Hs. repeat split.
    + simpl. now rewrite <- Ht.
    + simpl. now rewrite E, Hl.
Qed.

Lemma split1_absent (c : char) (s : text) :
  contains [c] s = false -> split1 c s = [s].
Proof.
  induction s as [|d t IH]; simpl; [reflexivity|].
  rewrite andb_true_r, (N.eqb_sym d c).
  destruct (N.eqb c d); simpl; [discriminate|].
  intros H. now rewrite (IH H).
Qed.

(** Induction two characters at a time, as [replace_eqeq] recurses. *)
Lemma text_pair_ind (P : text -> Prop) :
  P [] ->
  (forall c, P [c]) ->
  (forall c d u, P u -> P (d :: u) -> P (c :: d :: u)) ->
  forall s, P s.
Proof.
  intros H0 H1 H2 s.
  enough (P s /\ forall c, P (c :: s)) by tauto.
  induction s as [|d u [IHu IHc]]; split; auto.
Qed.

Lemma replace_eqeq_head (d : char) (u : text) :
  N.eqb d equals_sign = false ->
  exists v, replace_eqeq (d :: u) = d :: v.
Proof.
  intros H. simpl. destruct u as [|e u']; [eauto|].
  rewrite H. simpl. eauto.
Qed.

Lemma startswith_eqeq (s : text) :
  startswith (text_of "==") s =
  match s with
  | c :: d :: _ => N.eqb c equals_sign && N.eqb d equals_sign
  | _ => false
  end.
Proof.
  change (text_of "==") with [equals_sign; equals_sign].
  destruct s as [|c [|d u]]; cbn [startswith];
    rewrite ?andb_true_r, ?andb_false_r; try reflexivity.
  now rewrite (N.eqb_sym equals_sign c), (N.eqb_sym equals_sign d).
Qed.

Lemma contains_eqeq_cons (c : char) (s : text) :
  contains (text_of "==") (c :: s)
  = startswith (text_of "==") (c :: s) || contains (text_of "==") s.
Proof. reflexivity. Qed.

End SplitReplace.

(** ** The shape of a run *)

Section RunFacts.
Context {L : Libraries}.

Ltac unfold_monad :=
  unfold bind, lib, lift, print, emit, ret, raise, get_locals,
    set_equation_expr, set_symbolic_solutions, set_numerical_solution_val.

Lemma print_lines_run (l : list string) (st : locals L) :
  print_lines l st = (Ok tt, st, events_of_lines l).
Proof.
  induction l as [|s l IH]; simpl; [reflexivity|].
  unfold bind, print, emit. now rewrite IH.
Qed.

(** The parse does not depend on the local variables; it assigns
    [equation_expr] exactly when it succeeds. *)
Lemma parse_equation_run (s : PyStr.text) (st : locals L) :
  parse_equation s st =
  match parse_result L s with
  | Ok e => (Ok e,
             mkLocals (py_value e) (symbolic_solutions st) (numerical_solution_val st),
             parse_calls L s)
  | Raise x => (Raise x, st, parse_calls L s)
  end.
Proof.
  unfold parse_result, parse_calls, parse_equation.
  destruct (PyStr.contains (text_of "=") s && negb (PyStr.contains (text_of "==") s)).
  - destruct (PyStr.split1 PyStr.equals_sign s) as [|a [|b [|c r]]]; try reflexivity.
    unfold_monad.
    destruct (sympify L a); [|reflexivity].
    destruct (sympify L b); [|reflexivity].
    destruct (sub L _ _); reflexivity.
  - unfold_monad. destruct (sympify L _); reflexivity.
Qed.

Lemma parse_calls_sympify (s : PyStr.text) :
  forallb is_sympify_call (parse_calls L s) = true.
Proof.
  unfold parse_calls, parse_equation.
  destruct (PyStr.contains (text_of "=") s && negb (PyStr.contains (text_of "==") s)).
  - destruct (PyStr.split1 PyStr.equals_sign s) as [|a [|b [|c r]]]; try reflexivity.
    unfold_monad.
    destruct (sympify L a); [|reflexivity].
    destruct (sympify L b); [|reflexivity].
    destruct (sub L _ _); reflexivity.
  - unfold_monad. destruct (sympify L _); reflexivity.
Qed.

(** [solveset] returned: the object it was given is not [None]. *)
Lemma solved_not_None (e : Expr L) (sol : SymSet L) :
  solveset L e = Ok sol -> is_None L e = false.
Proof.
  intros H. destruct (is_None L e) eqn:E; [|reflexivity].
  destruct (solveset_None L e E) as [x Hx]. congruence.
Qed.

Lemma py_value_Some (e e' : Expr L) :
  py_value e = Some e' -> e' = e /\ is_None L e = false.
Proof.
  unfold py_value. destruct (is_None L e); [discriminate|].
  intros H. injection H as <-. auto.
Qed.

Lemma report_symbolic_run (s : SymSet L) (st : locals L) :
  report_symbolic s st = (Ok tt, st, report_events s).
Proof.
  unfold report_events, report_symbolic.
  destruct (is_FiniteSet L s && truth L s); [reflexivity|].
  destruct (is_ConditionSet L s); [reflexivity|].
  destruct (is_EmptySet L s); reflexivity.
Qed.

Lemma symbolic_try_run (s : PyStr.text) :
  symbolic_try L s =
  match parse_result L s with
  | Ok e =>
      match solveset L e with
      | Ok sol => (Ok tt, mkLocals (py_value e) (Some sol) None,
                   parse_calls L s ++ Call (CSolveset e) :: report_events sol)
      | Raise x => handled x (mkLocals (py_value e) None None)
                     (parse_calls L s ++ [Call (CSolveset e)])
      end
  | Raise x => handled x init (parse_calls L s)
  end.
Proof.
  unfold symbolic_try, try_except, symbolic_body, bind.
  rewrite parse_equation_run.
  destruct (parse_result L s) as [e|x].
  - unfold lib at 1. destruct (solveset L e) as [sol|x].
    + unfold set_symbolic_solutions. rewrite report_symbolic_run.
      simpl. reflexivity.
    + unfold handled, symbolic_handlers, is_parse_class.
      destruct (isinstance x _); [reflexivity|].
      destruct (is_Exception (cls x)); reflexivity.
  - unfold handled, symbolic_handlers, is_parse_class.
    destruct (isinstance x _); [now rewrite ?app_nil_r|].
    destruct (is_Exception (cls x)); reflexivity.
Qed.

Lemma numerical_stage_run (st : locals L) :
  numerical_stage st =
  if numerical_gate st then
    match equation_expr st with
    | Some e =>
        let '(r, st', t) := numerical_try e st in
        (r, st', Print (Text numerical_header) :: t)
    | None => (Ok tt, st, [Print (Text numerical_header)])
    end
  else (Ok tt, st, []).
Proof.
  unfold numerical_stage, bind, get_locals, numerical_try.
  destruct (numerical_gate st); [|reflexivity].
  unfold print, emit. destruct (equation_expr st); [|reflexivity].
  destruct (try_except _ _ st) as [[r st'] t]. reflexivity.
Qed.

Lemma numerical_try_run (e : Expr L) (st : locals L) :
  numerical_try e st =
  match lambdify L e with
  | Raise x => numerical_handled x st [Call (CLambdify e)]
  | Ok f =>
      match fsolve L f (num_1_0 L) with
      | Raise x => numerical_handled x st (numerical_prefix e)
      | Ok out =>
          if (fs_ier out =? 1)%Z then
            match index0 (fs_x out) with
            | Raise x => numerical_handled x st (numerical_prefix e)
            | Ok v =>
                match f v with
                | Raise x =>
                    numerical_handled x st
                      (numerical_prefix e ++ [Call (CNumericFunc v)])
                | Ok r =>
                    if isclose L r (num_0 L) then
                      (Ok tt,
                       mkLocals (equation_expr st) (symbolic_solutions st) (Some v),
                       numerical_prefix e ++
                       [Call (CNumericFunc v); Print (NumericalFound v)])
                    else
                      (Ok tt, st,
                       numerical_prefix e ++
                       [Call (CNumericFunc v); Call (CNumericFunc v);
                        Print (ResidualMismatch v r)])
                end
            end
          else
            (Ok tt, st,
             numerical_prefix e ++
             [Print (Text "Numerical solver did not converge or failed.");
              Print (SolverMessage (fs_mesg out))])
      end
  end.
Proof.
  assert (Hh : forall x t,
             match numerical_handlers x with
             | Some h => let '(r, st2, t2) := h st in (r, st2, t ++ t2)
             | None => (Raise x, st, t)
             end = numerical_handled x st t).
  { intros x t. unfold numerical_handlers, numerical_handled.
    destruct (isinstance x [NameError]); [reflexivity|].
    destruct (isinstance x [TypeError]); [reflexivity|].
    destruct (is_Exception (cls x)); reflexivity. }
  unfold numerical_try, try_except, numerical_body, numerical_prefix.
  unfold_monad.
  destruct (lambdify L e) as [f|x]; [|apply Hh].
  destruct (fsolve L f (num_1_0 L)) as [out|x]; [|apply Hh].
  destruct (fs_ier out =? 1)%Z; [|reflexivity].
  destruct (index0 (fs_x out)) as [v|x]; [|apply Hh].
  destruct (f v) as [r|x]; [|apply Hh].
  destruct (isclose L r (num_0 L)); reflexivity.
Qed.

(** A run on a line that is not blank: the symbolic [try], then the
    numerical stage, then the closing lines. *)
Lemma run_line (line : PyStr.text) :
  PyStr.all_space line = false ->
  run L (Ok line) =
  let '(r1, st1, t1) := symbolic_try L (PyStr.strip line) in
  match r1 with
  | Raise x => (Raise x, st1, preamble ++ t1)
  | Ok _ =>
      let '(r2, st2, t2) := numerical_stage st1 in
      match r2 with
      | Raise x => (Raise x, st2, preamble ++ t1 ++ t2)
      | Ok _ => (Ok tt, st2, preamble ++ t1 ++ t2 ++ events_of_lines closing)
      end
  end.
Proof.
  intros H. unfold run, solve_for_x, bind at 1. rewrite print_lines_run.
  unfold bind at 1, input, lib at 1.
  rewrite is_empty_strip, H.
  unfold bind at 1, set_symbolic_solutions at 1.
  unfold bind at 1, set_numerical_solution_val at 1.
  unfold bind at 1, set_equation_expr at 1.
  unfold bind at 1, print at 1, emit at 1.
  cbn [symbolic_solutions numerical_solution_val equation_expr].
  unfold bind at 1. fold (init (L:=L)).
  fold (symbolic_try L (PyStr.strip line)).
  destruct (symbolic_try L (PyStr.strip line)) as [[[u|x] st1] t1].
  - unfold bind at 1.
    destruct (numerical_stage st1) as [[[u2|x] st2] t2].
    + rewrite print_lines_run. unfold preamble.
      rewrite <- !app_assoc. reflexivity.
    + unfold preamble. rewrite <- !app_assoc. reflexivity.
  - unfold preamble. rewrite <- !app_assoc. reflexivity.
Qed.

End RunFacts.

(** ** Reading the pieces of a trace *)

Section TraceFacts.
Context {L : Libraries}.

Lemma numerical_invoked_app (a b : list (event L)) :
  numerical_invoked (a ++ b) = numerical_invoked a || numerical_invoked b.
Proof. apply existsb_app. Qed.

Lemma numerical_found_app (a b : list (event L)) :
  numerical_found (a ++ b) = numerical_found a ++ numerical_found b.
Proof. apply flat_map_app. Qed.

Lemma residual_mismatches_app (a b : list (event L)) :
  residual_mismatches (a ++ b) = residual_mismatches a ++ residual_mismatches b.
Proof. apply flat_map_app. Qed.

Lemma examined_app (a b : list (event L)) :
  examined (a ++ b) = examined a ++ examined b.
Proof. apply flat_map_app. Qed.

Lemma parse_errors_app (a b : list (event L)) :
  parse_errors (a ++ b) = parse_errors a ++ parse_errors b.
Proof. apply flat_map_app. Qed.

Lemma unexpected_symbolic_app (a b : list (event L)) :
  unexpected_symbolic (a ++ b) = unexpected_symbolic a ++ unexpected_symbolic b.
Proof. apply flat_map_app. Qed.

Lemma solution_lists_app (a b : list (event L)) :
  solution_lists (a ++ b) = solution_lists a ++ solution_lists b.
Proof. apply flat_map_app. Qed.

Lemma solving_calls_app (a b : list (event L)) :
  solving_calls (a ++ b) = solving_calls a ++ solving_calls b.
Proof. apply filter_app. Qed.

(** A trace of calls to [sympify] shows nothing else. *)
Lemma sympify_calls_silent (t : list (event L)) :
  forallb is_sympify_call t = true ->
  numerical_invoked t = false /\ numerical_found t = []
  /\ residual_mismatches t = [] /\ examined t = []
  /\ parse_errors t = [] /\ unexpected_symbolic t = []
  /\ solution_lists t = [] /\ existsb is_numerical_call t = false.
Proof.
  induction t as [|ev t IH]; simpl; [tauto|].
  intros H. apply andb_true_iff in H as [Hev Ht].
  destruct ev as [m|[p|s|e|e|g|v]]; try discriminate. simpl. auto.
Qed.

Lemma preamble_silent :
  numerical_invoked (preamble (L:=L)) = false
  /\ numerical_found (preamble (L:=L)) = []
  /\ residual_mismatches (preamble (L:=L)) = []
  /\ examined (preamble (L:=L)) = []
  /\ parse_errors (preamble (L:=L)) = []
  /\ unexpected_symbolic (preamble (L:=L)) = []
  /\ solution_lists (preamble (L:=L)) = []
  /\ solving_calls (preamble (L:=L)) = [].
Proof. repeat split. Qed.

Lemma closing_silent :
  numerical_invoked (events_of_lines (L:=L) closing) = false
  /\ numerical_found (events_of_lines (L:=L) closing) = []
  /\ residual_mismatches (events_of_lines (L:=L) closing) = []
  /\ examined (events_of_lines (L:=L) closing) = []
  /\ parse_errors (events_of_lines (L:=L) closing) = []
  /\ unexpected_symbolic (events_of_lines (L:=L) closing) = []
  /\ solution_lists (events_of_lines (L:=L) closing) = []
  /\ solving_calls (events_of_lines (L:=L) closing) = [].
Proof. repeat split. Qed.

Lemma report_events_silent (s : SymSet L) :
  numerical_invoked (report_events s) = false
  /\ numerical_found (report_events s) = []
  /\ residual_mismatches (report_events s) = []
  /\ examined (report_events s) = []
  /\ parse_errors (report_events s) = []
  /\ unexpected_symbolic (report_events s) = [].
Proof.
  unfold report_events, report_symbolic.
  destruct (is_FiniteSet L s && truth L s); [repeat split|].
  destruct (is_ConditionSet L s); [repeat split|].
  destruct (is_EmptySet L s); repeat split.
Qed.

(** The symbolic [try] never shows an event of the numerical stage. *)
Lemma symbolic_try_silent (s : PyStr.text) :
  let t := trace (symbolic_try L s) in
  numerical_invoked t = false /\ numerical_found t = []
  /\ residual_mismatches t = [] /\ examined t = [].
Proof.
  destruct (sympify_calls_silent _ (parse_calls_sympify (L:=L) s))
    as (P1 & P2 & P3 & P4 & _).
  assert (Hh : forall x st t,
             numerical_invoked t = false /\ numerical_found t = []
             /\ residual_mismatches t = [] /\ examined t = [] ->
             let t' := trace (handled (L:=L) x st t) in
             numerical_invoked t' = false /\ numerical_found t' = []
             /\ residual_mismatches t' = [] /\ examined t' = []).
  { intros x st t (H1 & H2 & H3 & H4). unfold handled, trace.
    destruct (is_parse_class x); [|destruct (is_Exception (cls x))]; simpl;
      rewrite ?numerical_invoked_app, ?numerical_found_app,
        ?residual_mismatches_app, ?examined_app, ?H1, ?H2, ?H3, ?H4;
      repeat split. }
  rewrite symbolic_try_run.
  destruct (parse_result L s) as [e|x].
  - destruct (solveset L e) as [sol|x].
    + destruct (report_events_silent sol) as (R1 & R2 & R3 & R4 & _).
      unfold trace; simpl.
      rewrite ?numerical_invoked_app, ?numerical_found_app,
        ?residual_mismatches_app, ?examined_app, P1, P2, P3, P4.
      simpl. rewrite R1, R2, R3, R4. repeat split.
    + apply Hh.
      rewrite ?numerical_invoked_app, ?numerical_found_app,
        ?residual_mismatches_app, ?examined_app, P1, P2, P3, P4.
      repeat split.
  - apply Hh. auto.
Qed.

Lemma run_eof (x : exn) :
  run L (Raise x) =
  (Raise x, init, events_of_lines banner ++ [Call (CInput "Enter equation: ")]).
Proof. reflexivity. Qed.

Lemma run_blank (line : PyStr.text) :
  PyStr.all_space line = true ->
  run L (Ok line) =
  (Ok tt, init,
   events_of_lines banner ++
   [Call (CInput "Enter equation: "); Print (Text "No equation entered.")]).
Proof.
  intros H. unfold run, solve_for_x, bind at 1. rewrite print_lines_run.
  unfold bind at 1, input, lib at 1.
  rewrite is_empty_strip, H. reflexivity.
Qed.

End TraceFacts.

(** ** When the numerical stage runs *)

Section Trigger.
Context {L : Libraries}.

(** The local variables the first [try] leaves, against line 96. *)
Lemma symbolic_try_gate (s : PyStr.text) :
  let '(r1, st1, _) := symbolic_try L s in
  numerical_solution_val st1 = None /\
  match r1 with
  | Ok _ =>
      numerical_gate st1 = fallback_due L s
      /\ (numerical_gate st1 = true ->
          exists e, parse_result L s = Ok e /\ equation_expr st1 = Some e)
  | Raise x => fallback_due L s = false /\ is_Exception (cls x) = false
  end.
Proof.
  rewrite symbolic_try_run. unfold fallback_due, handled.
  destruct (parse_result L s) as [e|x] eqn:Hp.
  - destruct (solveset L e) as [sol|x].
    + split; [reflexivity|]. unfold numerical_gate, py_value; simpl.
      destruct (is_None L e); simpl; split; try discriminate;
        try reflexivity.
      * now destruct (is_FiniteSet L sol), (truth L sol).
      * eauto.
    + destruct (is_parse_class x); [|destruct (is_Exception (cls x)) eqn:E];
        simpl; repeat split; unfold numerical_gate, py_value; simpl;
        rewrite ?andb_false_r; try reflexivity;
        destruct (is_None L e); simpl; try discriminate; eauto.
  - destruct (is_parse_class x); [|destruct (is_Exception (cls x)) eqn:E];
      simpl; repeat split; unfold numerical_gate; simpl;
      try discriminate; auto.
Qed.

(** The header of the numerical stage is in the trace exactly when the
    condition of line 96 holds. *)
Lemma numerical_invoked_run (stdin : result PyStr.text) :
  numerical_invoked (trace (run L stdin)) =
  match stdin with
  | Raise _ => false
  | Ok line =>
      negb (PyStr.all_space line) && fallback_due L (PyStr.strip line)
  end.
Proof.
  destruct stdin as [line|x]; [|reflexivity].
  destruct (PyStr.all_space line) eqn:Hb.
  - now rewrite run_blank.
  - rewrite run_line by assumption.
    pose proof (symbolic_try_gate (PyStr.strip line)) as G.
    pose proof (symbolic_try_silent (L:=L) (PyStr.strip line)) as (S1 & _).
    destruct (preamble_silent (L:=L)) as (A1 & _).
    destruct (closing_silent (L:=L)) as (C1 & _).
    cbn [negb andb].
    destruct (symbolic_try L (PyStr.strip line)) as [[[u|x] st1] t1];
      unfold trace in S1; cbn [snd] in S1; destruct G as [_ G].
    + destruct G as [G _]. rewrite <- G. rewrite numerical_stage_run.
      destruct (numerical_gate st1).
      * destruct (equation_expr st1) as [e|].
        -- destruct (numerical_try e st1) as [[[u2|x] st2] t2];
             unfold trace; cbn [snd];
             rewrite !numerical_invoked_app, A1, S1;
             cbn; reflexivity.
        -- unfold trace; cbn [snd]. rewrite !numerical_invoked_app, A1, S1.
           reflexivity.
      * unfold trace; cbn [snd].
        rewrite !numerical_invoked_app, A1, S1, C1. reflexivity.
    + destruct G as [G _]. rewrite G. unfold trace; cbn [snd].
      rewrite numerical_invoked_app, A1, S1. reflexivity.
Qed.

End Trigger.

(** C1.  The numerical stage (its header, line 97) is entered only when a
    line was read whose expression was parsed and either [solveset]
    returned a set that is not a non-empty finite set, or [solveset]
    raised; and whenever the parsed expression has a non-empty finite
    solution set, the numerical stage is not entered. *)
Theorem C1_numerical_trigger (L : Libraries) (stdin : result PyStr.text) :
  (numerical_invoked (trace (run L stdin)) = true ->
   exists line e,
     stdin = Ok line /\ normalize L line = Ok e /\
     ((exists sol, solveset L e = Ok sol
                   /\ (is_FiniteSet L sol && truth L sol) = false
                   /\ classify sol <> Finite)
      \/ (exists x, solveset L e = Raise x)))
  /\
  (forall line e sol,
     stdin = Ok line -> normalize L line = Ok e -> solveset L e = Ok sol ->
     is_FiniteSet L sol = true -> truth L sol = true ->
     numerical_invoked (trace (run L stdin)) = false).
Proof.
  rewrite numerical_invoked_run. split.
  - destruct stdin as [line|x]; [|discriminate].
    intros H. apply andb_true_iff in H as [_ H].
    unfold fallback_due in H.
    destruct (parse_result L (PyStr.strip line)) as [e|x] eqn:Hp;
      [|discriminate].
    apply andb_true_iff in H as [_ H].
    exists line, e. split; [reflexivity|]. split; [exact Hp|].
    destruct (solveset L e) as [sol|x]; [left|right; eauto].
    exists sol. apply negb_true_iff in H. repeat split; [assumption|].
    unfold classify. rewrite H.
    destruct (is_ConditionSet L sol); [discriminate|].
    destruct (is_EmptySet L sol); discriminate.
  - intros line e sol -> Hn Hs Hf Ht. unfold fallback_due.
    unfold normalize in Hn. rewrite Hn, Hs, Hf, Ht.
    cbn [andb negb]. now rewrite !andb_false_r.
Qed.

(** C1 on the line [1 + x = 4]: the set is [{3}] and the numerical stage
    stays out. *)
Lemma C1_numerical_trigger_witness :
  numerical_invoked (trace (run Sample.libs (Ok (text_of "1 + x = 4")))) = false.
Proof.
  apply (proj2 (C1_numerical_trigger Sample.libs (Ok (text_of "1 + x = 4")))
           (text_of "1 + x = 4")
           (Sample.Diff (Sample.Parsed "1 + x") (Sample.IntLit 4))
           (Sample.FiniteSet [Sample.IntLit 3]));
    reflexivity.
Defined.

(** C2, as the specification words it, fails on the line [1 + x = 4]:
    the symbolic stage finds the finite set [{3}], and the numerical
    stage does not run. *)
Lemma C2_counterexample :
  normalize Sample.libs (text_of "1 + x = 4")
  = Ok (Sample.Diff (Sample.Parsed "1 + x") (Sample.IntLit 4))
  /\ solveset Sample.libs (Sample.Diff (Sample.Parsed "1 + x") (Sample.IntLit 4))
     = Ok (Sample.FiniteSet [Sample.IntLit 3])
  /\ classify (L:=Sample.libs) (Sample.FiniteSet [Sample.IntLit 3]) = Finite
  /\ solution_lists (trace (run Sample.libs (Ok (text_of "1 + x = 4")))) = [[PyInt 3%Z]]
  /\ numerical_invoked (trace (run Sample.libs (Ok (text_of "1 + x = 4")))) = false.
Proof. repeat split. Qed.

(** The whole run when the symbolic stage finds a non-empty finite set. *)
Lemma run_finite (L : Libraries) (line : PyStr.text)
    (e : Expr L) (sol : SymSet L) :
  PyStr.all_space line = false ->
  normalize L line = Ok e ->
  solveset L e = Ok sol ->
  is_FiniteSet L sol = true ->
  truth L sol = true ->
  run L (Ok line) =
  (Ok tt, mkLocals (Some e) (Some sol) None,
   preamble ++ normalize_calls L line ++
   [Call (CSolveset e);
    Print (Text "Symbolic Solution(s) found:");
    Print (SolutionsList (map to_python (members L sol)))] ++
   events_of_lines closing).
Proof.
  intros Hb Hn Hs Hf Ht. rewrite run_line by assumption.
  rewrite symbolic_try_run. unfold normalize in Hn. rewrite Hn, Hs.
  rewrite numerical_stage_run. unfold numerical_gate, py_value.
  rewrite (solved_not_None e sol Hs).
  cbn [equation_expr symbolic_solutions]. rewrite Hf, Ht. cbn [negb orb].
  unfold report_events, report_symbolic. rewrite Hf, Ht. cbn [andb].
  unfold normalize_calls. cbn. now rewrite <- app_assoc.
Qed.

(** C2, amended.  When the symbolic stage finds a non-empty finite set,
    the run prints the solutions and goes straight to the closing lines:
    the whole run is the preamble, the calls that parse, the call to
    [solveset], the two lines of the report and the closing lines. *)
Theorem C2_finite_then_finished (L : Libraries) (line : PyStr.text)
    (e : Expr L) (sol : SymSet L) :
  PyStr.all_space line = false ->
  normalize L line = Ok e ->
  solveset L e = Ok sol ->
  is_FiniteSet L sol = true ->
  truth L sol = true ->
  run L (Ok line) =
  (Ok tt, mkLocals (Some e) (Some sol) None,
   preamble ++ normalize_calls L line ++
   [Call (CSolveset e);
    Print (Text "Symbolic Solution(s) found:");
    Print (SolutionsList (map to_python (members L sol)))] ++
   events_of_lines closing).
Proof. apply run_finite. Qed.

Lemma C2_finite_then_finished_witness :
  trace (run Sample.libs (Ok (text_of "x**2 - 5*x + 6 = 0"))) =
  preamble ++
  [Call (CSympify (text_of "x**2 - 5*x + 6 ")); Call (CSympify (text_of " 0"));
   Call (CSolveset (L:=Sample.libs) (Sample.Diff (Sample.Parsed "x**2 - 5*x + 6") (Sample.IntLit 0)));
   Print (Text "Symbolic Solution(s) found:");
   Print (SolutionsList [PyInt 2%Z; PyInt 3%Z])] ++
  events_of_lines closing.
Proof.
  rewrite (C2_finite_then_finished Sample.libs (text_of "x**2 - 5*x + 6 = 0")
             (Sample.Diff (Sample.Parsed "x**2 - 5*x + 6") (Sample.IntLit 0))
             (Sample.FiniteSet [Sample.IntLit 2; Sample.IntLit 3]));
    reflexivity.
Defined.

(** C7.  On a line that is empty or all white space the run prints the
    banner, reads the line, prints "No equation entered." and returns:
    no call parses or solves anything, and the numerical stage is not
    entered. *)
Theorem C7_blank_input (L : Libraries) (line : PyStr.text) :
  PyStr.all_space line = true ->
  run L (Ok line) =
  (Ok tt, init,
   events_of_lines banner ++
   [Call (CInput "Enter equation: "); Print (Text "No equation entered.")])
  /\ solving_calls (trace (run L (Ok line))) = []
  /\ numerical_invoked (trace (run L (Ok line))) = false.
Proof.
  intros H. rewrite (run_blank line H). repeat split.
Qed.

(** C7 on a line of a blank, a no-break space (U+00A0), an em space
    (U+2003) and a tab. *)
Lemma C7_blank_input_witness :
  solving_calls (trace (run Sample.libs (Ok [32; 160; 8195; 9]%N))) = [].
Proof.
  apply (C7_blank_input Sample.libs [32; 160; 8195; 9]%N). reflexivity.
Defined.

(** ** The Input Normalizer *)

Section Normalizer.
Context {L : Libraries}.

Lemma eqeq_absent_strip (text : PyStr.text) :
  PyStr.contains (text_of "==") text = false ->
  PyStr.contains (text_of "==") (PyStr.strip text) = false.
Proof.
  intros H. destruct (PyStr.contains (text_of "==") (PyStr.strip text)) eqn:E;
    [|reflexivity].
  apply contains_strip in E. congruence.
Qed.

(** The branch of lines 47-53, on the stripped text. *)
Lemma parse_equation_split (s l r : PyStr.text) (st : locals L) :
  PyStr.contains (text_of "=") s = true -> PyStr.contains (text_of "==") s = false ->
  PyStr.split1 PyStr.equals_sign s = [l; r] ->
  parse_equation s st =
  match sympify L l with
  | Raise x => (Raise x, st, [Call (CSympify l)])
  | Ok lhs =>
      match sympify L r with
      | Raise x => (Raise x, st, [Call (CSympify l); Call (CSympify r)])
      | Ok rhs =>
          match sub L lhs rhs with
          | Raise x => (Raise x, st, [Call (CSympify l); Call (CSympify r)])
          | Ok d =>
              (Ok d,
               mkLocals (py_value d) (symbolic_solutions st) (numerical_solution_val st),
               [Call (CSympify l); Call (CSympify r)])
          end
      end
  end.
Proof.
  intros H1 H2 Hs. unfold parse_equation. rewrite H1, H2, Hs. cbn [negb andb].
  unfold bind, lib, lift, set_equation_expr, ret.
  destruct (sympify L l); [|reflexivity].
  destruct (sympify L r); [|reflexivity].
  destruct (sub L _ _); reflexivity.
Qed.

(** The branch of lines 55-58, on the stripped text. *)
Lemma parse_equation_whole (s : PyStr.text) (st : locals L) :
  PyStr.contains (text_of "=") s && negb (PyStr.contains (text_of "==") s) = false ->
  parse_equation s st =
  match sympify L (PyStr.replace_eqeq s) with
  | Raise x => (Raise x, st, [Call (CSympify (PyStr.replace_eqeq s))])
  | Ok e =>
      (Ok e,
       mkLocals (py_value e) (symbolic_solutions st) (numerical_solution_val st),
       [Call (CSympify (PyStr.replace_eqeq s))])
  end.
Proof.
  intros H. unfold parse_equation. rewrite H.
  unfold bind, lib, set_equation_expr, ret.
  destruct (sympify L _); reflexivity.
Qed.

End Normalizer.

(** C3.  When the text has an [=] and no [==], the stripped text is cut
    at its first [=] (the left part has none), the two parts are given to
    [sympify] one after the other, and the normalized expression is what
    [lhs - rhs] gives. *)
Theorem C3_split_at_first_equals (L : Libraries) (text : PyStr.text) :
  PyStr.contains (text_of "=") text = true ->
  PyStr.contains (text_of "==") text = false ->
  exists lhs_str rhs_str,
    PyStr.strip text = lhs_str ++ text_of "=" ++ rhs_str
    /\ PyStr.contains (text_of "=") lhs_str = false
    /\ normalize L text =
       rbind (sympify L lhs_str) (fun lhs =>
       rbind (sympify L rhs_str) (fun rhs => sub L lhs rhs))
    /\ (forall lhs rhs d,
          sympify L lhs_str = Ok lhs -> sympify L rhs_str = Ok rhs ->
          sub L lhs rhs = Ok d ->
          normalize L text = Ok d
          /\ normalize_calls L text
             = [Call (CSympify lhs_str); Call (CSympify rhs_str)]).
Proof.
  intros H1 H2.
  assert (S1 : PyStr.contains (text_of "=") (PyStr.strip text) = true).
  { change (text_of "=") with [PyStr.equals_sign] in *.
    now rewrite contains_char_strip. }
  pose proof (eqeq_absent_strip text H2) as S2.
  destruct (split1_found PyStr.equals_sign _ S1) as [l [r [Hs [Ht Hl]]]].
  exists l, r. split; [exact Ht|]. split; [exact Hl|].
  unfold normalize, normalize_calls, parse_result, parse_calls.
  rewrite (parse_equation_split _ l r init S1 S2 Hs). split.
  - destruct (sympify L l); [|reflexivity]. simpl.
    destruct (sympify L r); [|reflexivity]. simpl.
    destruct (sub L _ _); reflexivity.
  - intros lhs rhs d -> -> ->. split; reflexivity.
Qed.

Lemma C3_split_at_first_equals_witness :
  exists lhs_str rhs_str,
    PyStr.strip (text_of " 1 + x = 4 ") = lhs_str ++ text_of "=" ++ rhs_str
    /\ PyStr.contains (text_of "=") lhs_str = false
    /\ normalize Sample.libs (text_of " 1 + x = 4 ") =
       rbind (sympify Sample.libs lhs_str) (fun lhs =>
       rbind (sympify Sample.libs rhs_str) (fun rhs => sub Sample.libs lhs rhs))
    /\ (forall lhs rhs d,
          sympify Sample.libs lhs_str = Ok lhs ->
          sympify Sample.libs rhs_str = Ok rhs ->
          sub Sample.libs lhs rhs = Ok d ->
          normalize Sample.libs (text_of " 1 + x = 4 ") = Ok d
          /\ normalize_calls Sample.libs (text_of " 1 + x = 4 ")
             = [Call (CSympify lhs_str); Call (CSympify rhs_str)]).
Proof.
  apply (C3_split_at_first_equals Sample.libs (text_of " 1 + x = 4 ")); reflexivity.
Defined.

(** ** The numerical stage *)

Section Numerical.
Context {L : Libraries}.

(** What a finished numerical [try] shows, case by case. *)
Lemma numerical_try_shows (e : Expr L) (st : locals L) :
  let '(_, st', t) := numerical_try e st in
  let quiet := numerical_found t = [] /\ residual_mismatches t = [] /\ st' = st in
  match lambdify L e with
  | Raise _ => examined t = [] /\ quiet
  | Ok f =>
      match fsolve L f (num_1_0 L) with
      | Raise _ => examined t = [] /\ quiet
      | Ok out =>
          if (fs_ier out =? 1)%Z then
            match fs_x out with
            | [] => examined t = [] /\ quiet
            | v :: _ =>
                match f v with
                | Raise _ => examined t = [v] /\ quiet
                | Ok r =>
                    if isclose L r (num_0 L) then
                      examined t = [v] /\ numerical_found t = [v]
                      /\ residual_mismatches t = []
                      /\ st' = mkLocals (equation_expr st)
                                 (symbolic_solutions st) (Some v)
                    else
                      examined t = [v; v] /\ numerical_found t = []
                      /\ residual_mismatches t = [(v, r)] /\ st' = st
                end
            end
          else examined t = [] /\ quiet
      end
  end.
Proof.
  assert (Hh : forall x t,
             numerical_found t = [] -> residual_mismatches t = [] ->
             let '(_, st', t') := numerical_handled x st t in
             examined t' = examined t /\ numerical_found t' = []
             /\ residual_mismatches t' = [] /\ st' = st).
  { intros x t H2 H3. unfold numerical_handled.
    destruct (isinstance x [NameError]);
      [|destruct (isinstance x [TypeError]);
        [|destruct (is_Exception (cls x))]];
      rewrite ?examined_app, ?numerical_found_app, ?residual_mismatches_app,
        ?H2, ?H3; simpl; rewrite ?app_nil_r; auto. }
  rewrite numerical_try_run.
  destruct (lambdify L e) as [f|x].
  2:{ specialize (Hh x [Call (CLambdify e)]).
      destruct (numerical_handled x st _) as [[r st'] t].
      destruct Hh as (-> & ? & ? & ?); cbv zeta; repeat split; auto. }
  destruct (fsolve L f (num_1_0 L)) as [out|x].
  2:{ specialize (Hh x (numerical_prefix e)).
      destruct (numerical_handled x st _) as [[r st'] t].
      destruct Hh as (-> & ? & ? & ?); cbv zeta; repeat split; auto. }
  destruct (fs_ier out =? 1)%Z; [|repeat split].
  destruct (fs_x out) as [|v rest]; cbn [index0].
  { specialize (Hh (mkExn IndexError
                      "index 0 is out of bounds for axis 0 with size 0")
                  (numerical_prefix e)).
    destruct (numerical_handled _ st _) as [[r st'] t].
    destruct Hh as (-> & ? & ? & ?); cbv zeta; repeat split; auto. }
  destruct (f v) as [r|x].
  2:{ specialize (Hh x (numerical_prefix e ++ [Call (CNumericFunc v)])).
      destruct (numerical_handled x st _) as [[r st'] t].
      destruct Hh as (-> & ? & ? & ?); cbv zeta; repeat split; auto. }
  destruct (isclose L r (num_0 L)); repeat split.
Qed.

(** The run when line 96 lets the numerical stage in. *)
Lemma run_fallback (line : PyStr.text) :
  PyStr.all_space line = false ->
  fallback_due L (PyStr.strip line) = true ->
  exists e st1 t1,
    normalize L line = Ok e
    /\ equation_expr st1 = Some e
    /\ numerical_solution_val st1 = None
    /\ examined t1 = [] /\ numerical_found t1 = []
    /\ residual_mismatches t1 = []
    /\ run L (Ok line) =
       let '(r2, st2, t2) := numerical_try e st1 in
       (r2, st2,
        preamble ++ t1 ++ (Print (Text numerical_header) :: t2) ++
        match r2 with
        | Ok _ => events_of_lines closing
        | Raise _ => []
        end).
Proof.
  intros Hb Hd. rewrite run_line by assumption.
  pose proof (symbolic_try_gate (L:=L) (PyStr.strip line)) as G.
  pose proof (symbolic_try_silent (L:=L) (PyStr.strip line)) as (_ & S2 & S3 & S4).
  destruct (symbolic_try L (PyStr.strip line)) as [[[u|x] st1] t1];
    unfold trace in S2, S3, S4; cbn [snd] in S2, S3, S4;
    destruct G as [Gn G].
  - destruct G as [G1 G2]. rewrite Hd in G1. destruct (G2 G1) as [e [He Hq]].
    exists e, st1, t1. repeat (split; [assumption|]).
    rewrite numerical_stage_run, G1, Hq.
    destruct (numerical_try e st1) as [[[[]|x] st2] t2];
      [reflexivity|now rewrite app_nil_r].
  - destruct G as [G _]. congruence.
Qed.

(** The run when it does not. *)
Lemma run_no_fallback (line : PyStr.text) :
  PyStr.all_space line = false ->
  fallback_due L (PyStr.strip line) = false ->
  let R := run L (Ok line) in
  examined (trace R) = [] /\ numerical_found (trace R) = []
  /\ residual_mismatches (trace R) = []
  /\ numerical_solution_val (final_locals R) = None.
Proof.
  intros Hb Hd. cbv zeta. rewrite run_line by assumption.
  pose proof (symbolic_try_gate (L:=L) (PyStr.strip line)) as G.
  pose proof (symbolic_try_silent (L:=L) (PyStr.strip line)) as (_ & S2 & S3 & S4).
  destruct (preamble_silent (L:=L)) as (_ & A2 & A3 & A4 & _).
  destruct (closing_silent (L:=L)) as (_ & C2 & C3 & C4 & _).
  destruct (symbolic_try L (PyStr.strip line)) as [[[u|x] st1] t1];
    unfold trace in S2, S3, S4; cbn [snd] in S2, S3, S4;
    destruct G as [Gn G].
  - destruct G as [G1 _]. rewrite Hd in G1.
    rewrite numerical_stage_run, G1.
    unfold trace, final_locals; cbn [fst snd].
    rewrite !examined_app, !numerical_found_app, !residual_mismatches_app,
      A2, A3, A4, S2, S3, S4, C2, C3, C4. auto.
  - unfold trace, final_locals; cbn [fst snd].
    rewrite !examined_app, !numerical_found_app, !residual_mismatches_app,
      A2, A3, A4, S2, S3, S4. auto.
Qed.

End Numerical.

Section NumericalRun.
Context {L : Libraries}.

(** With the numerical stage in, what the whole run shows of it is what
    the numerical [try] shows. *)
Lemma run_fallback_shows (line : PyStr.text) :
  numerical_invoked (trace (run L (Ok line))) = true ->
  exists e st1,
    normalize L line = Ok e
    /\ equation_expr st1 = Some e
    /\ numerical_solution_val st1 = None
    /\ let R := run L (Ok line) in
       let '(r2, st2, t2) := numerical_try e st1 in
       outcome R = r2 /\ final_locals R = st2
       /\ examined (trace R) = examined t2
       /\ numerical_found (trace R) = numerical_found t2
       /\ residual_mismatches (trace R) = residual_mismatches t2.
Proof.
  rewrite numerical_invoked_run. intros H.
  apply andb_true_iff in H as [Hb Hd]. apply negb_true_iff in Hb.
  destruct (run_fallback line Hb Hd)
    as (e & st1 & t1 & Hn & He & Hv & T1 & T2 & T3 & HR).
  exists e, st1. repeat (split; [assumption|]).
  cbv zeta. rewrite HR.
  destruct (preamble_silent (L:=L)) as (_ & A2 & A3 & A4 & _).
  destruct (closing_silent (L:=L)) as (_ & C2 & C3 & C4 & _).
  destruct (numerical_try e st1) as [[r2 st2] t2].
  unfold outcome, final_locals, trace; cbn [fst snd].
  rewrite !examined_app, !numerical_found_app, !residual_mismatches_app,
    A2, A3, A4, T1, T2, T3.
  destruct r2; cbn [app]; rewrite ?C2, ?C3, ?C4, ?app_nil_r;
    repeat split.
Qed.

Lemma numerical_found_at_most_one (stdin : result PyStr.text) :
  (length (numerical_found (trace (run L stdin))) <= 1)%nat.
Proof.
  destruct stdin as [line|x]; [|cbn; lia].
  destruct (numerical_invoked (trace (run L (Ok line)))) eqn:Hi.
  - destruct (run_fallback_shows line Hi) as (e & st1 & _ & _ & _ & HR).
    cbv zeta in HR. pose proof (numerical_try_shows e st1) as T.
    destruct (numerical_try e st1) as [[r2 st2] t2].
    destruct HR as (_ & _ & _ & -> & _). cbv zeta in T.
    destruct (lambdify L e) as [f|]; [|destruct T as (_ & -> & _); cbn; lia].
    destruct (fsolve L f (num_1_0 L)) as [out|];
      [|destruct T as (_ & -> & _); cbn; lia].
    destruct (fs_ier out =? 1)%Z; [|destruct T as (_ & -> & _); cbn; lia].
    destruct (fs_x out) as [|v rest]; [destruct T as (_ & -> & _); cbn; lia|].
    destruct (f v) as [r|]; [|destruct T as (_ & -> & _); cbn; lia].
    destruct (isclose L r (num_0 L)); destruct T as (_ & -> & _); cbn; lia.
  - rewrite numerical_invoked_run in Hi.
    destruct (PyStr.all_space line) eqn:Hb.
    + rewrite run_blank by assumption. cbn. lia.
    + cbn [negb andb] in Hi.
      destruct (run_no_fallback line Hb Hi) as (_ & -> & _). cbn. lia.
Qed.

End NumericalRun.

(** C4.  In a run where [fsolve] reports convergence ([ier = 1]) and the
    residual [r] at the candidate [v] can be computed: if [np.isclose(r, 0)]
    holds, [v] is printed as the numerical solution and kept in
    [numerical_solution_val]; if it does not hold, nothing is printed as a
    solution or kept, and the discrepancy is printed with [v] and [r]. *)
Theorem C4_accept_only_if_close (L : Libraries) (line : PyStr.text)
    (e : Expr L) (f : Num L -> result (Num L)) (out : fsolve_output (Num L))
    (v : Num L) (rest : list (Num L)) (r : Num L) :
  normalize L line = Ok e ->
  numerical_invoked (trace (run L (Ok line))) = true ->
  lambdify L e = Ok f ->
  fsolve L f (num_1_0 L) = Ok out ->
  fs_ier out = 1%Z ->
  fs_x out = v :: rest ->
  f v = Ok r ->
  let R := run L (Ok line) in
  (isclose L r (num_0 L) = true ->
   numerical_found (trace R) = [v]
   /\ residual_mismatches (trace R) = []
   /\ numerical_solution_val (final_locals R) = Some v)
  /\
  (isclose L r (num_0 L) = false ->
   numerical_found (trace R) = []
   /\ residual_mismatches (trace R) = [(v, r)]
   /\ numerical_solution_val (final_locals R) = None).
Proof.
  intros Hn Hi Hl Hs Hier Hx Hf.
  destruct (run_fallback_shows line Hi) as (e' & st1 & Hn' & He & Hv & HR).
  assert (e' = e) by congruence. subst e'.
  cbv zeta in HR |- *. pose proof (numerical_try_shows e st1) as T.
  destruct (numerical_try e st1) as [[r2 st2] t2].
  destruct HR as (_ & -> & _ & -> & ->). cbv zeta in T.
  rewrite Hl, Hs, Hier, Hx, Hf in T. cbn [Z.eqb Pos.eqb] in T.
  split; intros Hc; rewrite Hc in T.
  - destruct T as (_ & -> & -> & ->). auto.
  - destruct T as (_ & -> & -> & ->). auto.
Qed.

(** C4 on the sample library: [cos(x) - x] from the guess 1.0 converges
    to 0.739... where the residual is close to zero. *)
Lemma C4_accept_only_if_close_witness :
  numerical_found (trace (run Sample.libs (Ok (text_of "sympy.cos(x) - x"))))
  = ["0.7390851332151607"].
Proof.
  apply (C4_accept_only_if_close Sample.libs (text_of "sympy.cos(x) - x")
           (Sample.Parsed "sympy.cos(x) - x") Sample.numeric_func
           (mkFsolve ["0.7390851332151607"] 1%Z "The solution converged.")
           "0.7390851332151607" [] "0.0");
    reflexivity.
Defined.

(** C10.  No run prints more than one numerical solution.  In a run where
    [fsolve] reports convergence with a result array [v :: rest], the only
    point at which the program evaluates the function is [v], the only
    value it can print as solution or in a discrepancy is [v], whatever
    [rest] holds. *)
Theorem C10_first_element_only (L : Libraries) (stdin : result PyStr.text) :
  let t := trace (run L stdin) in
  (length (numerical_found t) <= 1)%nat
  /\
  (forall line e f out v rest,
     stdin = Ok line ->
     normalize L line = Ok e ->
     numerical_invoked t = true ->
     lambdify L e = Ok f ->
     fsolve L f (num_1_0 L) = Ok out ->
     fs_ier out = 1%Z ->
     fs_x out = v :: rest ->
     (examined t = [v] \/ examined t = [v; v])
     /\ (numerical_found t = [] \/ numerical_found t = [v])
     /\ (forall w r, In (w, r) (residual_mismatches t) -> w = v)).
Proof.
  cbv zeta. split; [apply numerical_found_at_most_one|].
  intros line e f out v rest -> Hn Hi Hl Hs Hier Hx.
  destruct (run_fallback_shows line Hi) as (e' & st1 & Hn' & He & Hv & HR).
  assert (e' = e) by congruence. subst e'.
  cbv zeta in HR. pose proof (numerical_try_shows e st1) as T.
  destruct (numerical_try e st1) as [[r2 st2] t2].
  destruct HR as (_ & _ & -> & -> & ->). cbv zeta in T.
  rewrite Hl, Hs, Hier, Hx in T. cbn [Z.eqb Pos.eqb] in T.
  destruct (f v) as [r|x].
  - destruct (isclose L r (num_0 L)); destruct T as (-> & -> & -> & _).
    + repeat split; auto. intros w r' [].
    + repeat split; auto. intros w r' [E|[]]. congruence.
  - destruct T as (-> & -> & -> & _). repeat split; auto. intros w r' [].
Qed.

Lemma C10_first_element_only_witness :
  examined (trace (run Sample.libs_bad_root (Ok (text_of "sympy.cos(x) - x")))) = ["1.0"]
  \/ examined (trace (run Sample.libs_bad_root (Ok (text_of "sympy.cos(x) - x"))))
     = ["1.0"; "1.0"].
Proof.
  apply (proj2 (C10_first_element_only Sample.libs_bad_root
                  (Ok (text_of "sympy.cos(x) - x")))
           (text_of "sympy.cos(x) - x") (Sample.Parsed "sympy.cos(x) - x")
           Sample.numeric_func
           (mkFsolve ["1.0"] 1%Z "The solution converged.") "1.0" []);
    reflexivity.
Defined.

(** ** Failures *)

Section Failures.
Context {L : Libraries}.

(** The numerical [try] begins with the call to [lambdify] on the
    expression it is given, and shows no event of the symbolic stage. *)
Lemma numerical_try_trace (e : Expr L) (st : locals L) :
  exists t',
    trace (numerical_try e st) = Call (CLambdify e) :: t'
    /\ parse_errors t' = [] /\ unexpected_symbolic t' = []
    /\ solution_lists t' = [].
Proof.
  assert (Hh : forall x t',
             parse_errors t' = [] -> unexpected_symbolic t' = [] ->
             solution_lists t' = [] ->
             exists t'',
               trace (numerical_handled x st (Call (CLambdify e) :: t'))
               = Call (CLambdify e) :: t''
               /\ parse_errors t'' = [] /\ unexpected_symbolic t'' = []
               /\ solution_lists t'' = []).
  { intros x t' H1 H2 H3. unfold numerical_handled, trace.
    destruct (isinstance x [NameError]);
      [|destruct (isinstance x [TypeError]);
        [|destruct (is_Exception (cls x))]];
      cbn [snd app]; eexists; (split; [reflexivity|]);
      rewrite ?parse_errors_app, ?unexpected_symbolic_app,
        ?solution_lists_app, ?H1, ?H2, ?H3; auto. }
  rewrite numerical_try_run. unfold numerical_prefix.
  destruct (lambdify L e) as [f|x]; [|now apply Hh].
  destruct (fsolve L f (num_1_0 L)) as [out|x]; [|now apply Hh].
  destruct (fs_ier out =? 1)%Z;
    [|eexists; unfold trace; cbn [snd app]; split; [reflexivity|auto]].
  destruct (index0 (fs_x out)) as [v|x]; [|now apply Hh].
  destruct (f v) as [r|x]; [|now apply (Hh x)].
  destruct (isclose L r (num_0 L));
    eexists; unfold trace; cbn [snd app]; split; try reflexivity; auto.
Qed.

(** A run on a line whose parse raises. *)
Lemma run_parse_failure (line : PyStr.text) (x : exn) :
  PyStr.all_space line = false ->
  normalize L line = Raise x ->
  is_Exception (cls x) = true ->
  run L (Ok line) =
  (Ok tt, init,
   preamble ++ normalize_calls L line ++
   (if is_parse_class x then
      [Print (ErrorParsing x);
       Print (Text "Please check syntax (use '**' for powers, ensure balanced parentheses).")]
    else [Print (UnexpectedSymbolic x)]) ++
   events_of_lines closing).
Proof.
  intros Hb Hn Hx. rewrite run_line by assumption.
  rewrite symbolic_try_run. unfold normalize in Hn. rewrite Hn.
  unfold handled. rewrite Hx. unfold normalize_calls.
  destruct (is_parse_class x); rewrite numerical_stage_run;
    unfold numerical_gate; cbn; now rewrite <- !app_assoc.
Qed.

End Failures.

(** C5.  The code at the line [sympy]: the text parses ([sympify] returns
    the module bound to that name), [solveset] raises [SympifyError] on
    it, and the first [except] clause takes the exception: it is printed
    as a parse error, [equation_expr] is reset to [None], and the
    numerical stage is not entered, so [lambdify] is never called on the
    object that was parsed. *)
Lemma C5_solving_error_skips_numerical :
  let x := mkExn SympifyError "SympifyError: <module 'sympy'>" in
  let R := run Sample.libs (Ok (text_of "sympy")) in
  normalize Sample.libs (text_of "sympy") = Ok (Sample.ModuleObj "sympy")
  /\ is_None Sample.libs (Sample.ModuleObj "sympy") = false
  /\ solveset Sample.libs (Sample.ModuleObj "sympy") = Raise x
  /\ outcome R = Ok tt
  /\ parse_errors (trace R) = [x]
  /\ unexpected_symbolic (trace R) = []
  /\ equation_expr (final_locals R) = None
  /\ numerical_invoked (trace R) = false
  /\ lambdified (trace R) = [].
Proof. repeat split. Qed.



(** C6, as the specification words it, fails on the line [x.foo]:
    [sympify] raises [AttributeError], which the first [except] clause
    does not name; the report is the one of the second clause, not the
    parse error. *)
Lemma C6_counterexample :
  let x := mkExn AttributeError "'Symbol' object has no attribute 'foo'" in
  normalize Sample.libs (text_of "x.foo") = Raise x
  /\ parse_errors (trace (run Sample.libs (Ok (text_of "x.foo")))) = []
  /\ unexpected_symbolic (trace (run Sample.libs (Ok (text_of "x.foo")))) = [x]
  /\ numerical_invoked (trace (run Sample.libs (Ok (text_of "x.foo")))) = false.
Proof. repeat split. Qed.

(** C6, amended.  When the parse of a line raises an instance of
    [Exception], the run reports it and finishes without the numerical
    stage, [equation_expr] being [None]: the report is the parse error
    when the exception is a [SympifyError], [TypeError] or [SyntaxError],
    and the report of an unexpected error otherwise. *)
Theorem C6_parse_failure_skips_numerical (L : Libraries) (line : PyStr.text)
    (x : exn) :
  PyStr.all_space line = false ->
  normalize L line = Raise x ->
  is_Exception (cls x) = true ->
  let R := run L (Ok line) in
  outcome R = Ok tt
  /\ equation_expr (final_locals R) = None
  /\ numerical_invoked (trace R) = false
  /\ existsb is_numerical_call (trace R) = false
  /\ (if is_parse_class x
      then parse_errors (trace R) = [x] /\ unexpected_symbolic (trace R) = []
      else parse_errors (trace R) = [] /\ unexpected_symbolic (trace R) = [x]).
Proof.
  intros Hb Hn Hx. cbv zeta.
  assert (Hi : numerical_invoked (trace (run L (Ok line))) = false).
  { rewrite numerical_invoked_run. unfold fallback_due.
    unfold normalize in Hn. rewrite Hn. apply andb_false_r. }
  rewrite Hi. rewrite (run_parse_failure line x Hb Hn Hx).
  unfold outcome, final_locals, trace; cbn [fst snd].
  destruct (sympify_calls_silent _ (parse_calls_sympify (L:=L) (PyStr.strip line)))
    as (_ & _ & _ & _ & Q1 & Q2 & _ & Q3).
  destruct (preamble_silent (L:=L)) as (_ & _ & _ & _ & A1 & A2 & _).
  unfold normalize_calls.
  rewrite !existsb_app, !parse_errors_app, !unexpected_symbolic_app,
    Q1, Q2, Q3, A1, A2.
  repeat (split; [reflexivity|]).
  split; [now destruct (is_parse_class x)|].
  destruct (is_parse_class x); split; reflexivity.
Qed.

Lemma C6_parse_failure_skips_numerical_witness :
  parse_errors (trace (run Sample.libs (Ok (text_of "(x"))))
  = [mkExn SympifyError "could not parse '(x'"]
  /\ unexpected_symbolic (trace (run Sample.libs (Ok (text_of "(x")))) = [].
Proof.
  refine (proj2 (proj2 (proj2 (proj2
    (C6_parse_failure_skips_numerical Sample.libs (text_of "(x")
       (mkExn SympifyError "could not parse '(x'") _ _ _))))); reflexivity.
Defined.

(** C8.  When [solveset] returns a non-empty finite set whose members are
    never both [Float] and [Integer], the set is classified [Finite] and
    the one list printed holds, member by member, the integer when the
    member is an [Integer], else the float when it is a [Float], else the
    member as it is. *)
Theorem C8_finite_members_normalized (L : Libraries) (line : PyStr.text)
    (e : Expr L) (sol : SymSet L) :
  PyStr.all_space line = false ->
  normalize L line = Ok e ->
  solveset L e = Ok sol ->
  is_FiniteSet L sol = true ->
  truth L sol = true ->
  (forall m, In m (members L sol) -> is_Float L m && is_Integer L m = false) ->
  classify sol = Finite
  /\ solution_lists (trace (run L (Ok line)))
     = [map normalize_member_spec (members L sol)].
Proof.
  intros Hb Hn Hs Hf Ht Hd. split.
  - unfold classify. now rewrite Hf, Ht.
  - rewrite (run_finite L line e sol Hb Hn Hs Hf Ht).
    unfold trace; cbn [snd].
    destruct (sympify_calls_silent _ (parse_calls_sympify (L:=L) (PyStr.strip line)))
      as (_ & _ & _ & _ & _ & _ & Q & _).
    destruct (preamble_silent (L:=L)) as (_ & _ & _ & _ & _ & _ & A & _).
    destruct (closing_silent (L:=L)) as (_ & _ & _ & _ & _ & _ & C & _).
    unfold normalize_calls. rewrite !solution_lists_app, Q, A, C.
    cbn. f_equal. apply map_ext_in. intros m Hm.
    specialize (Hd m Hm). unfold to_python, normalize_member_spec.
    destruct (is_Float L m), (is_Integer L m); try reflexivity.
    discriminate.
Qed.

Lemma C8_finite_members_normalized_witness :
  solution_lists (trace (run Sample.libs (Ok (text_of "x**2 - 5*x + 6 = 0"))))
  = [[PyInt 2%Z; PyInt 3%Z]].
Proof.
  refine (proj2
    (C8_finite_members_normalized Sample.libs (text_of "x**2 - 5*x + 6 = 0")
       (Sample.Diff (Sample.Parsed "x**2 - 5*x + 6") (Sample.IntLit 0))
       (Sample.FiniteSet [Sample.IntLit 2; Sample.IntLit 3])
       _ _ _ _ _ _)); try reflexivity.
  intros m [<-|[<-|[]]]; reflexivity.
Defined.

(** C9, as the specification words it, fails when standard input is at
    its end: [input] raises [EOFError] outside of any [try], and the
    exception leaves [solve_for_x]. *)
Lemma C9_counterexample :
  outcome (run Sample.libs (Raise (mkExn EOFError "EOF when reading a line")))
  = Raise (mkExn EOFError "EOF when reading a line")
  /\ outcome (run Sample.libs (Raise (mkExn EOFError "EOF when reading a line")))
     <> Ok tt.
Proof. split; [reflexivity|discriminate]. Qed.


(** * Further properties of the program *)

(** ** Stripping, splitting, replacing *)

Section MoreStrings.
Import PyStr.

Lemma rstrip_idempotent (s : text) : rstrip (rstrip s) = rstrip s.
Proof.
  induction s as [|c t IH]; simpl; [reflexivity|].
  destruct (rstrip t) as [|d r] eqn:E.
  - destruct (isspace c) eqn:Hc; simpl; [reflexivity|]. now rewrite Hc.
  - simpl in IH |- *. now rewrite IH.
Qed.

Lemma rstrip_head (s : text) (c : char) (t : text) :
  s = c :: t -> isspace c = false ->
  exists r, rstrip s = c :: r.
Proof.
  intros -> Hc. simpl. destruct (rstrip t); rewrite ?Hc; eauto.
Qed.

Lemma lstrip_fixed (s : text) :
  (forall c t, s = c :: t -> isspace c = false) -> lstrip s = s.
Proof.
  destruct s as [|c t]; [reflexivity|].
  intros H. simpl. now rewrite (H c t eq_refl).
Qed.

(** Stripping twice is stripping once. *)
Lemma strip_idempotent (s : text) : strip (strip s) = strip s.
Proof.
  unfold strip.
  assert (H : lstrip (rstrip (lstrip s)) = rstrip (lstrip s)).
  { destruct (lstrip s) as [|c t] eqn:E; [reflexivity|].
    pose proof (lstrip_head s c t E) as Hc.
    destruct (rstrip_head (c :: t) c t eq_refl Hc) as [r Hr].
    rewrite Hr. simpl. now rewrite Hc. }
  rewrite H. apply rstrip_idempotent.
Qed.

(** What is left after stripping neither begins nor ends with white
    space. *)
Lemma strip_no_leading_space (s : text) (c : char) (t : text) :
  strip s = c :: t -> isspace c = false.
Proof.
  unfold strip. destruct (lstrip s) as [|d u] eqn:E; [discriminate|].
  pose proof (lstrip_head s d u E) as Hd.
  destruct (rstrip_head (d :: u) d u eq_refl Hd) as [r Hr].
  rewrite Hr. intros H. injection H as <- _. exact Hd.
Qed.

Lemma rstrip_no_trailing_space (s t : text) (c : char) :
  rstrip s = t ++ [c] -> isspace c = false.
Proof.
  revert t. induction s as [|d u IH]; intros t; simpl.
  - destruct t; discriminate.
  - destruct (rstrip u) as [|e r] eqn:E.
    + destruct (isspace d) eqn:Hd.
      * destruct t; discriminate.
      * destruct t as [|a [|b t']]; simpl; intros H; try discriminate.
        now injection H as <-.
    + destruct t as [|a t']; simpl; intros H; [discriminate|].
      injection H as _ H. eapply IH. exact H.
Qed.

Lemma strip_no_trailing_space (s t : text) (c : char) :
  strip s = t ++ [c] -> isspace c = false.
Proof. apply rstrip_no_trailing_space. Qed.

(** [join] undoes [split1]. *)
Lemma join_split1 (c : char) (s : text) :
  join [c] (split1 c s) = s.
Proof.
  destruct (contains [c] s) eqn:H.
  - destruct (split1_found c s H) as [l [r [-> [E _]]]]. simpl. now rewrite E.
  - now rewrite (split1_absent c s H).
Qed.

Lemma split1_length (c : char) (s : text) :
  length (split1 c s) = if contains [c] s then 2%nat else 1%nat.
Proof.
  destruct (contains [c] s) eqn:H.
  - destruct (split1_found c s H) as [l [r [-> _]]]. reflexivity.
  - now rewrite (split1_absent c s H).
Qed.

Lemma replace_eqeq_step (c d : char) (u : text) :
  replace_eqeq (c :: d :: u) =
  if N.eqb c equals_sign && N.eqb d equals_sign
  then minus_sign :: replace_eqeq u
  else c :: replace_eqeq (d :: u).
Proof. reflexivity. Qed.

(** After the replacement no [==] is left. *)
Lemma replace_eqeq_clean (s : text) :
  contains (text_of "==") (replace_eqeq s) = false.
Proof.
  induction s as [| c | c d u IHu IHd] using text_pair_ind.
  - reflexivity.
  - cbn [replace_eqeq]. rewrite contains_eqeq_cons, startswith_eqeq.
    reflexivity.
  - rewrite replace_eqeq_step.
    destruct (N.eqb c equals_sign && N.eqb d equals_sign) eqn:E.
    + rewrite contains_eqeq_cons, IHu, orb_false_r.
      rewrite startswith_eqeq. destruct (replace_eqeq u); reflexivity.
    + rewrite contains_eqeq_cons, IHd, orb_false_r.
      rewrite startswith_eqeq.
      destruct (N.eqb d equals_sign) eqn:Ed.
      * rewrite andb_true_r in E.
        destruct (replace_eqeq (d :: u)); [reflexivity|].
        now rewrite E.
      * destruct (replace_eqeq_head d u Ed) as [v ->].
        rewrite Ed. apply andb_false_r.
Qed.

(** A text without [==] is left as it is. *)
Lemma replace_eqeq_fixed (s : text) :
  contains (text_of "==") s = false -> replace_eqeq s = s.
Proof.
  induction s as [| c | c d u IHu IHd] using text_pair_ind.
  - reflexivity.
  - reflexivity.
  - rewrite contains_eqeq_cons, startswith_eqeq. intros H.
    apply orb_false_iff in H as [H1 H2].
    rewrite replace_eqeq_step, H1. f_equal. apply IHd. exact H2.
Qed.

Lemma isspace_not_equals (c : char) :
  isspace c = true -> N.eqb c equals_sign = false.
Proof.
  intros H. destruct (N.eqb c equals_sign) eqn:E; [|reflexivity].
  apply N.eqb_eq in E. subst c. discriminate.
Qed.

(** Stripping keeps an [==] that the text has. *)
Lemma all_space_no_eqeq (a : text) :
  all_space a = true -> contains (text_of "==") a = false.
Proof.
  unfold all_space. induction a as [|c a IH]; [reflexivity|].
  cbn [forallb]. intros H.
  apply andb_true_iff in H as [Hc Ha].
  rewrite contains_eqeq_cons, (IH Ha), orb_false_r, startswith_eqeq.
  destruct a as [|d a']; [reflexivity|].
  now rewrite (isspace_not_equals c Hc).
Qed.

Lemma contains_eqeq_drop_left (a s : text) :
  all_space a = true ->
  contains (text_of "==") (a ++ s) = contains (text_of "==") s.
Proof.
  unfold all_space. induction a as [|c a IH]; [reflexivity|].
  cbn [forallb]. intros H.
  apply andb_true_iff in H as [Hc Ha].
  change ((c :: a) ++ s) with (c :: (a ++ s)).
  rewrite contains_eqeq_cons, (IH Ha), startswith_eqeq.
  rewrite (isspace_not_equals c Hc). now destruct (a ++ s).
Qed.

Lemma contains_eqeq_drop_right (s b : text) :
  all_space b = true ->
  contains (text_of "==") (s ++ b) = contains (text_of "==") s.
Proof.
  intros Hb. induction s as [|c s IH].
  - simpl app. rewrite (all_space_no_eqeq b Hb). reflexivity.
  - change ((c :: s) ++ b) with (c :: (s ++ b)).
    rewrite !contains_eqeq_cons, IH. f_equal.
    rewrite !startswith_eqeq. destruct s as [|d s']; [|reflexivity].
    simpl app. destruct b as [|e b']; [reflexivity|].
    unfold all_space in Hb. cbn [forallb] in Hb.
    apply andb_true_iff in Hb as [He _].
    rewrite (isspace_not_equals e He). apply andb_false_r.
Qed.

Lemma contains_eqeq_strip (s : text) :
  contains (text_of "==") (strip s) = contains (text_of "==") s.
Proof.
  destruct (strip_decomp s) as [a [b [E [Ha Hb]]]].
  rewrite E at 2.
  now rewrite (contains_eqeq_drop_left a _ Ha), (contains_eqeq_drop_right _ b Hb).
Qed.

End MoreStrings.

(** ** The calls of a run *)

Section CallFacts.
Context {L : Libraries}.

Lemma sympify_calls_only (t : list (event L)) :
  forallb is_sympify_call t = true ->
  solved t = [] /\ lambdified t = [] /\ fsolve_guesses t = []
  /\ texts t = [] /\ sets_printed t = [] /\ numerical_errors t = []
  /\ solver_messages t = [] /\ length (sympified t) = length t.
Proof.
  induction t as [|ev t IH]; simpl; [repeat split|].
  intros H. apply andb_true_iff in H as [Hev Ht].
  destruct ev as [m|[p|s|e|e|g|v]]; try discriminate.
  destruct (IH Ht) as (? & ? & ? & ? & ? & ? & ? & ?). simpl.
  repeat split; auto.
Qed.

Lemma parse_calls_length (s : PyStr.text) :
  (length (parse_calls L s) <= 2)%nat.
Proof.
  unfold parse_calls, parse_equation.
  destruct (PyStr.contains (text_of "=") s && negb (PyStr.contains (text_of "==") s)).
  - destruct (PyStr.split1 PyStr.equals_sign s) as [|a [|b [|c r]]]; try (cbn; lia).
    unfold bind, lib, lift, set_equation_expr, ret.
    destruct (sympify L a); [|cbn; lia].
    destruct (sympify L b); [|cbn; lia].
    destruct (sub L _ _); cbn; lia.
  - unfold bind, lib, set_equation_expr, ret.
    destruct (sympify L _); cbn; lia.
Qed.

(** The calls of the first [try]: at most two to [sympify], then at most
    one to [solveset], on the expression parsed; none of the numerical
    stage. *)
Lemma symbolic_try_calls (s : PyStr.text) :
  let t := trace (symbolic_try L s) in
  lambdified t = [] /\ fsolve_guesses t = []
  /\ numerical_errors t = [] /\ solver_messages t = []
  /\ (length (sympified t) <= 2)%nat
  /\ (solved t = [] \/ exists e, parse_result L s = Ok e /\ solved t = [e]).
Proof.
  cbv zeta. rewrite symbolic_try_run.
  destruct (sympify_calls_only _ (parse_calls_sympify (L:=L) s))
    as (Q1 & Q2 & Q3 & _ & _ & Q6 & Q7 & Q8).
  pose proof (parse_calls_length s) as Hlen. rewrite <- Q8 in Hlen.
  assert (Hh : forall x st t,
             lambdified t = [] -> fsolve_guesses t = [] ->
             numerical_errors t = [] -> solver_messages t = [] ->
             let t' := trace (handled (L:=L) x st t) in
             lambdified t' = [] /\ fsolve_guesses t' = []
             /\ numerical_errors t' = [] /\ solver_messages t' = []
             /\ sympified t' = sympified t /\ solved t' = solved t).
  { intros x st t H1 H2 H3 H4. unfold handled, trace.
    destruct (is_parse_class x); [|destruct (is_Exception (cls x))];
      cbn [snd]; unfold lambdified, fsolve_guesses, numerical_errors,
        solver_messages, sympified, solved in *;
      rewrite ?flat_map_app, ?H1, ?H2, ?H3, ?H4; cbn;
      rewrite ?app_nil_r; repeat split. }
  destruct (parse_result L s) as [e|x] eqn:Hp.
  - destruct (solveset L e) as [sol|x].
    + unfold trace; cbn [snd].
      change (Call (CSolveset e) :: report_events sol)
        with ([Call (CSolveset e)] ++ report_events sol).
      assert (R : lambdified (report_events sol) = []
                  /\ fsolve_guesses (report_events sol) = []
                  /\ numerical_errors (report_events sol) = []
                  /\ solver_messages (report_events sol) = []
                  /\ sympified (report_events sol) = []
                  /\ solved (report_events sol) = []).
      { unfold report_events, report_symbolic.
        destruct (is_FiniteSet L sol && truth L sol); [repeat split|].
        destruct (is_ConditionSet L sol); [repeat split|].
        destruct (is_EmptySet L sol); repeat split. }
      destruct R as (R1 & R2 & R3 & R4 & R5 & R6).
      unfold lambdified, fsolve_guesses, numerical_errors,
        solver_messages, sympified, solved in *.
      rewrite !flat_map_app, Q1, Q2, Q3, Q6, Q7, R1, R2, R3, R4, R5, R6.
      cbn. rewrite !app_nil_r. repeat split; eauto.
    + destruct (Hh x (mkLocals (py_value e) None None)
                  (parse_calls L s ++ [Call (CSolveset e)]))
        as (H1 & H2 & H3 & H4 & H5 & H6);
        try (unfold lambdified, fsolve_guesses, numerical_errors,
               solver_messages in *;
             rewrite flat_map_app; cbn;
             rewrite ?Q2, ?Q3, ?Q6, ?Q7; reflexivity).
      rewrite H1, H2, H3, H4, H5, H6.
      unfold sympified, solved in *. rewrite !flat_map_app, Q1. cbn.
      rewrite app_nil_r. repeat split; eauto.
  - destruct (Hh x init (parse_calls L s) Q2 Q3 Q6 Q7)
      as (H1 & H2 & H3 & H4 & H5 & H6).
    rewrite H1, H2, H3, H4, H5, H6, Q1. repeat split; auto.
Qed.

(** The calls of the second [try]: [lambdify] once, on the expression
    given; [fsolve] at most once, from the guess 1.0; the function at most
    twice; nothing of the symbolic stage. *)
Lemma numerical_try_calls (e : Expr L) (st : locals L) :
  let t := trace (numerical_try e st) in
  sympified t = [] /\ solved t = [] /\ lambdified t = [e]
  /\ (fsolve_guesses t = [] \/ fsolve_guesses t = [num_1_0 L])
  /\ (length (examined t) <= 2)%nat.
Proof.
  cbv zeta.
  assert (Hh : forall x t,
             let t' := trace (numerical_handled x st t) in
             sympified t' = sympified t /\ solved t' = solved t
             /\ lambdified t' = lambdified t
             /\ fsolve_guesses t' = fsolve_guesses t
             /\ examined t' = examined t).
  { intros x t. unfold numerical_handled, trace.
    destruct (isinstance x [NameError]);
      [|destruct (isinstance x [TypeError]);
        [|destruct (is_Exception (cls x))]];
      cbn [snd]; unfold sympified, solved, lambdified, fsolve_guesses, examined;
      rewrite ?flat_map_app; cbn; rewrite ?app_nil_r; repeat split. }
  rewrite numerical_try_run.
  destruct (lambdify L e) as [f|x].
  2:{ destruct (Hh x [Call (CLambdify e)]) as (-> & -> & -> & -> & ->).
      cbn. repeat split; auto. }
  destruct (fsolve L f (num_1_0 L)) as [out|x].
  2:{ destruct (Hh x (numerical_prefix e)) as (-> & -> & -> & -> & ->).
      cbn. repeat split; auto. }
  destruct (fs_ier out =? 1)%Z; [|cbn; repeat split; auto].
  destruct (index0 (fs_x out)) as [v|x].
  2:{ destruct (Hh x (numerical_prefix e)) as (-> & -> & -> & -> & ->).
      cbn. repeat split; auto. }
  destruct (f v) as [r|x].
  2:{ destruct (Hh x (numerical_prefix e ++ [Call (CNumericFunc v)]))
        as (-> & -> & -> & -> & ->).
      cbn. repeat split; auto. }
  destruct (isclose L r (num_0 L)); cbn; repeat split; auto.
Qed.

(** A run on a line that is not blank, in three parts. *)
Lemma run_three_parts (line : PyStr.text) :
  PyStr.all_space line = false ->
  exists t2 t3,
    trace (run L (Ok line))
    = preamble ++ trace (symbolic_try L (PyStr.strip line)) ++ t2 ++ t3
    /\ (t2 = []
        \/ exists e st,
             normalize L line = Ok e
             /\ t2 = Print (Text numerical_header) :: trace (numerical_try e st))
    /\ (t3 = [] \/ t3 = events_of_lines closing).
Proof.
  intros Hb. rewrite run_line by assumption.
  pose proof (symbolic_try_gate (L:=L) (PyStr.strip line)) as G.
  destruct (symbolic_try L (PyStr.strip line)) as [[[u|x] st1] t1];
    destruct G as [_ G].
  - destruct G as [_ G]. rewrite numerical_stage_run.
    destruct (numerical_gate st1).
    + destruct (G eq_refl) as [e [He Hq]]. rewrite Hq.
      destruct (numerical_try e st1) as [[[u2|x] st2] t2] eqn:Hn.
      * exists (Print (Text numerical_header) :: t2), (events_of_lines closing).
        unfold trace; cbn [snd]. split; [reflexivity|]. split; [|auto].
        right. exists e, st1. rewrite Hn. auto.
      * exists (Print (Text numerical_header) :: t2), [].
        unfold trace; cbn [snd]. rewrite app_nil_r.
        split; [reflexivity|]. split; [|auto].
        right. exists e, st1. rewrite Hn. auto.
    + exists [], (events_of_lines closing). unfold trace; cbn [snd]. auto.
  - exists [], []. unfold trace; cbn [snd]. rewrite !app_nil_r. auto.
Qed.

End CallFacts.

Section CallTheorems.
Context {L : Libraries}.

Lemma preamble_calls :
  sympified (preamble (L:=L)) = [] /\ solved (preamble (L:=L)) = []
  /\ lambdified (preamble (L:=L)) = [] /\ fsolve_guesses (preamble (L:=L)) = []
  /\ numerical_errors (preamble (L:=L)) = []
  /\ solver_messages (preamble (L:=L)) = [].
Proof. repeat split. Qed.

Lemma closing_calls :
  sympified (events_of_lines (L:=L) closing) = []
  /\ solved (events_of_lines (L:=L) closing) = []
  /\ lambdified (events_of_lines (L:=L) closing) = []
  /\ fsolve_guesses (events_of_lines (L:=L) closing) = []
  /\ numerical_errors (events_of_lines (L:=L) closing) = []
  /\ solver_messages (events_of_lines (L:=L) closing) = [].
Proof. repeat split. Qed.

(** What a run calls, part by part. *)
Lemma run_calls (line : PyStr.text) :
  PyStr.all_space line = false ->
  let t := trace (run L (Ok line)) in
  let t1 := trace (symbolic_try L (PyStr.strip line)) in
  sympified t = sympified t1 /\ solved t = solved t1
  /\ ((lambdified t = [] /\ fsolve_guesses t = [] /\ examined t = [])
      \/ exists e st,
           normalize L line = Ok e
           /\ lambdified t = lambdified (trace (numerical_try e st))
           /\ fsolve_guesses t = fsolve_guesses (trace (numerical_try e st))
           /\ examined t = examined (trace (numerical_try e st))).
Proof.
  intros Hb. cbv zeta.
  destruct (run_three_parts (L:=L) line Hb) as (t2 & t3 & -> & H2 & H3).
  destruct preamble_calls as (A1 & A2 & A3 & A4 & _).
  destruct (preamble_silent (L:=L)) as (_ & _ & _ & A5 & _).
  destruct (symbolic_try_calls (L:=L) (PyStr.strip line)) as (S1 & S2 & _).
  destruct (symbolic_try_silent (L:=L) (PyStr.strip line)) as (_ & _ & _ & S3).
  assert (H3' : sympified t3 = [] /\ solved t3 = [] /\ lambdified t3 = []
                /\ fsolve_guesses t3 = [] /\ examined t3 = []).
  { destruct H3 as [->| ->]; repeat split. }
  destruct H3' as (C1 & C2 & C3 & C4 & C5).
  cbv zeta in S1, S2, S3.
  destruct H2 as [->|(e & st & Hn & ->)].
  - unfold sympified, solved, lambdified, fsolve_guesses, examined in *.
    rewrite !flat_map_app, A1, A2, A3, A4, A5, S1, S2, S3, C1, C2, C3, C4, C5.
    cbn. rewrite !app_nil_r.
    split; [reflexivity|]. split; [reflexivity|]. left. repeat split.
  - destruct (numerical_try_calls e st) as (N1 & N2 & _).
    cbv zeta in N1, N2.
    change (Print (Text numerical_header) :: trace (numerical_try e st))
      with ([Print (Text numerical_header)] ++ trace (numerical_try e st)).
    unfold sympified, solved, lambdified, fsolve_guesses, examined in *.
    rewrite !flat_map_app, A1, A2, A3, A4, A5, S1, S2, S3, N1, N2,
      C1, C2, C3, C4, C5.
    cbn. rewrite !app_nil_r. split; [reflexivity|]. split; [reflexivity|].
    right. exists e, st. auto.
Qed.

End CallTheorems.

(** X4.  Each library function is called a bounded number of times in a run:
    [sympify] at most twice, [solveset], [lambdify] and [fsolve] at most
    once each, and the program evaluates the numeric function at most
    twice; [fsolve] only ever starts from the guess 1.0. *)
Theorem calls_are_bounded (L : Libraries) (stdin : result PyStr.text) :
  let t := trace (run L stdin) in
  (length (sympified t) <= 2)%nat
  /\ (length (solved t) <= 1)%nat
  /\ (length (lambdified t) <= 1)%nat
  /\ (length (fsolve_guesses t) <= 1)%nat
  /\ (length (examined t) <= 2)%nat
  /\ (forall g, In g (fsolve_guesses t) -> g = num_1_0 L).
Proof.
  cbv zeta. destruct stdin as [line|x].
  2:{ rewrite run_eof. cbn. repeat split; try lia; try (intros g []). }
  destruct (PyStr.all_space line) eqn:Hb.
  { rewrite run_blank by assumption. cbn. repeat split; try lia; try (intros g []). }
  destruct (run_calls (L:=L) line Hb) as (-> & -> & HN).
  destruct (symbolic_try_calls (L:=L) (PyStr.strip line))
    as (_ & _ & _ & _ & S5 & S6).
  cbv zeta in S5, S6.
  assert (Hs : (length (solved (trace (symbolic_try L (PyStr.strip line)))) <= 1)%nat).
  { destruct S6 as [->|(e & _ & ->)]; cbn; lia. }
  destruct HN as [(-> & -> & ->)|(e & st & _ & -> & -> & ->)].
  - cbn. repeat split; try lia; try assumption; try (intros g []).
  - destruct (numerical_try_calls e st) as (_ & _ & -> & N4 & N5).
    cbv zeta in N4, N5.
    repeat split; try assumption; try (cbn; lia).
    + destruct N4 as [-> | ->]; cbn; lia.
    + intros g Hg. destruct N4 as [E|E]; rewrite E in Hg.
      * destruct Hg.
      * destruct Hg as [<-|[]]. reflexivity.
Qed.

(** X5.  Whatever expression [solveset] or [lambdify] is called on in a run is
    the expression the normalizer produced for the line: both stages work
    on the same expression. *)
Theorem stages_share_the_expression (L : Libraries) (line : PyStr.text)
    (e : Expr L) :
  In e (solved (trace (run L (Ok line)))
        ++ lambdified (trace (run L (Ok line)))) ->
  normalize L line = Ok e.
Proof.
  destruct (PyStr.all_space line) eqn:Hb.
  { rewrite run_blank by assumption. intros []. }
  destruct (run_calls (L:=L) line Hb) as (_ & -> & HN).
  destruct (symbolic_try_calls (L:=L) (PyStr.strip line))
    as (_ & _ & _ & _ & _ & S6).
  cbv zeta in S6. intros H. apply in_app_or in H as [H|H].
  - destruct S6 as [E|(e' & He & E)]; rewrite E in H.
    + destruct H.
    + destruct H as [<-|[]]. exact He.
  - destruct HN as [(E & _)|(e' & st & He & E & _)]; rewrite E in H.
    + destruct H.
    + destruct (numerical_try_calls e' st) as (_ & _ & E' & _).
      cbv zeta in E'. rewrite E' in H. destruct H as [<-|[]]. exact He.
Qed.

Lemma stages_share_the_expression_witness :
  normalize Sample.libs (text_of "sympy.cos(x) - x") = Ok (Sample.Parsed "sympy.cos(x) - x").
Proof.
  apply (stages_share_the_expression Sample.libs (text_of "sympy.cos(x) - x")).
  cbn. right. left. reflexivity.
Defined.

(** ** More on the Input Normalizer *)

(** A text with an [==] has an [=]. *)
Lemma eqeq_needs_eq (s : PyStr.text) :
  PyStr.contains (text_of "==") s = true ->
  PyStr.contains (text_of "=") s = true.
Proof.
  induction s as [|c t IH]; [discriminate|].
  rewrite contains_eqeq_cons. intros H.
  apply orb_true_iff in H as [H|H].
  - rewrite startswith_eqeq in H. destruct t as [|d u]; [discriminate|].
    apply andb_true_iff in H as [H _].
    change (text_of "=") with [PyStr.equals_sign].
    rewrite contains_char. cbn [existsb]. now rewrite N.eqb_sym, H.
  - cbn [PyStr.contains]. rewrite (IH H). apply orb_true_r.
Qed.

(** X1.  The other branch (lines 55-58).  When the text has no [=], or has an
    [==], the whole stripped text goes to [sympify] once, every [==]
    replaced by [-]: what is parsed has no [==] left, and is the stripped
    text itself when the text had no [=] at all. *)
Theorem normalize_whole_text (L : Libraries) (text : PyStr.text) :
  PyStr.contains (text_of "=") text = false \/ PyStr.contains (text_of "==") text = true ->
  let parsed := PyStr.replace_eqeq (PyStr.strip text) in
  normalize L text = sympify L parsed
  /\ normalize_calls L text = [Call (CSympify parsed)]
  /\ PyStr.contains (text_of "==") parsed = false
  /\ (PyStr.contains (text_of "=") text = false -> parsed = PyStr.strip text).
Proof.
  intros H. cbv zeta.
  assert (G : PyStr.contains (text_of "=") (PyStr.strip text)
              && negb (PyStr.contains (text_of "==") (PyStr.strip text)) = false).
  { change (text_of "=") with [PyStr.equals_sign] in *.
    rewrite contains_eqeq_strip, contains_char_strip by reflexivity.
    destruct H as [-> | ->]; [reflexivity|apply andb_false_r]. }
  unfold normalize, normalize_calls, parse_result, parse_calls.
  rewrite (parse_equation_whole _ init G).
  split; [now destruct (sympify L _)|].
  split; [now destruct (sympify L _)|].
  split; [apply replace_eqeq_clean|].
  intros H0. apply replace_eqeq_fixed.
  rewrite contains_eqeq_strip.
  destruct (PyStr.contains (text_of "==") text) eqn:E; [|reflexivity].
  apply eqeq_needs_eq in E. congruence.
Qed.

Lemma normalize_whole_text_witness :
  normalize Sample.libs (text_of " x == 4 ") = sympify Sample.libs (text_of "x - 4").
Proof.
  refine (proj1 (normalize_whole_text Sample.libs (text_of " x == 4 ") _)).
  right. reflexivity.
Defined.

(** X2.  White space around the line typed changes nothing: the run on a line
    is the run on the stripped line. *)
Theorem run_ignores_surrounding_space (L : Libraries) (line : PyStr.text) :
  run L (Ok line) = run L (Ok (PyStr.strip line)).
Proof.
  assert (Hs : PyStr.all_space (PyStr.strip line) = PyStr.all_space line)
    by now rewrite <- !is_empty_strip, strip_idempotent.
  destruct (PyStr.all_space line) eqn:Hb.
  - now rewrite !run_blank.
  - rewrite !run_line by assumption. now rewrite strip_idempotent.
Qed.

(** X3.  The normalizer fails only when [sympify] or the subtraction fails:
    under the test of line 46 the split has two parts, so the unpacking
    of line 48 cannot raise. *)
Theorem normalize_fails_in_the_library (L : Libraries) (text : PyStr.text)
    (x : exn) :
  normalize L text = Raise x ->
  (exists s, In s (sympified (normalize_calls L text))
             /\ sympify L s = Raise x)
  \/ (exists lhs rhs, sub L lhs rhs = Raise x).
Proof.
  unfold normalize, normalize_calls, parse_result, parse_calls.
  set (s := PyStr.strip text).
  destruct (PyStr.contains (text_of "=") s && negb (PyStr.contains (text_of "==") s)) eqn:G.
  - apply andb_true_iff in G as [G1 G2]. apply negb_true_iff in G2.
    destruct (split1_found PyStr.equals_sign s G1) as [l [r [Hs _]]].
    rewrite (parse_equation_split s l r init G1 G2 Hs).
    destruct (sympify L l) as [lhs|y] eqn:El.
    + destruct (sympify L r) as [rhs|y] eqn:Er.
      * destruct (sub L lhs rhs) as [d|y] eqn:Ed; [discriminate|].
        cbn. intros E. injection E as <-. right. eauto.
      * cbn. intros E. injection E as <-. left. exists r. auto.
    + cbn. intros E. injection E as <-. left. exists l. auto.
  - rewrite (parse_equation_whole s init G).
    destruct (sympify L _) as [e|y] eqn:Ee; [discriminate|].
    cbn. intros E. injection E as <-. left. eauto.
Qed.

Lemma normalize_fails_in_the_library_witness :
  (exists s, In s (sympified (normalize_calls Sample.libs (text_of "x.foo")))
             /\ sympify Sample.libs s
                = Raise (mkExn AttributeError "'Symbol' object has no attribute 'foo'"))
  \/ (exists lhs rhs, sub Sample.libs lhs rhs
                      = Raise (mkExn AttributeError "'Symbol' object has no attribute 'foo'")).
Proof.
  apply (normalize_fails_in_the_library Sample.libs (text_of "x.foo")). reflexivity.
Defined.

(** ** The run, with and without the numerical stage *)

(** Membership in a list of literal lines, by computation. *)
Ltac in_literals :=
  cbn; repeat ((left; reflexivity) || right).

Ltac incl_literals :=
  let a := fresh "a" in
  let Ha := fresh "Ha" in
  intros a Ha; cbn in Ha;
  repeat (destruct Ha as [<-|Ha]; [in_literals|]); destruct Ha.

Section WholeRun.
Context {L : Libraries}.

Lemma run_with_fallback (line : PyStr.text) :
  PyStr.all_space line = false ->
  fallback_due L (PyStr.strip line) = true ->
  exists e st1 t3,
    normalize L line = Ok e
    /\ outcome (symbolic_try L (PyStr.strip line)) = Ok tt
    /\ final_locals (symbolic_try L (PyStr.strip line)) = st1
    /\ equation_expr st1 = Some e
    /\ numerical_solution_val st1 = None
    /\ outcome (run L (Ok line)) = outcome (numerical_try e st1)
    /\ final_locals (run L (Ok line)) = final_locals (numerical_try e st1)
    /\ trace (run L (Ok line))
       = preamble ++ trace (symbolic_try L (PyStr.strip line))
         ++ ([Print (Text numerical_header)] ++ trace (numerical_try e st1))
         ++ t3
    /\ ((t3 = [] /\ outcome (numerical_try e st1) <> Ok tt)
        \/ (t3 = events_of_lines closing
            /\ outcome (numerical_try e st1) = Ok tt)).
Proof.
  intros Hb Hd. rewrite run_line by assumption.
  pose proof (symbolic_try_gate (L:=L) (PyStr.strip line)) as G.
  destruct (symbolic_try L (PyStr.strip line)) as [[[[]|x] st1] t1];
    destruct G as [Gn G].
  - destruct G as [G1 G2]. rewrite Hd in G1. destruct (G2 G1) as [e [He Hq]].
    rewrite numerical_stage_run, G1, Hq.
    destruct (numerical_try e st1) as [[[[]|x] st2] t2] eqn:Hn.
    + exists e, st1, (events_of_lines closing). rewrite Hn.
      unfold outcome, final_locals, trace; cbn [fst snd].
      repeat (split; [assumption || reflexivity|]). right. auto.
    + exists e, st1, []. rewrite Hn.
      unfold outcome, final_locals, trace; cbn [fst snd].
      rewrite app_nil_r.
      repeat (split; [assumption || reflexivity|]). left.
      split; [reflexivity|discriminate].
  - destruct G as [G _]. congruence.
Qed.

Lemma run_without_fallback (line : PyStr.text) :
  PyStr.all_space line = false ->
  fallback_due L (PyStr.strip line) = false ->
  exists t3,
    outcome (run L (Ok line)) = outcome (symbolic_try L (PyStr.strip line))
    /\ final_locals (run L (Ok line))
       = final_locals (symbolic_try L (PyStr.strip line))
    /\ trace (run L (Ok line))
       = preamble ++ trace (symbolic_try L (PyStr.strip line)) ++ t3
    /\ ((t3 = [] /\ outcome (symbolic_try L (PyStr.strip line)) <> Ok tt)
        \/ (t3 = events_of_lines closing
            /\ outcome (symbolic_try L (PyStr.strip line)) = Ok tt)).
Proof.
  intros Hb Hd. rewrite run_line by assumption.
  pose proof (symbolic_try_gate (L:=L) (PyStr.strip line)) as G.
  destruct (symbolic_try L (PyStr.strip line)) as [[[[]|x] st1] t1];
    destruct G as [Gn G].
  - destruct G as [G1 _]. rewrite Hd in G1.
    rewrite numerical_stage_run, G1.
    exists (events_of_lines closing).
    unfold outcome, final_locals, trace; cbn [fst snd].
    repeat (split; [reflexivity|]). right. split; reflexivity.
  - exists []. unfold outcome, final_locals, trace; cbn [fst snd].
    rewrite app_nil_r. repeat (split; [reflexivity|]). left.
    split; [reflexivity|discriminate].
Qed.

(** An exception leaves the numerical [try] only if it is no instance of
    [Exception]. *)
Lemma numerical_try_raise (e : Expr L) (st : locals L) (x : exn) :
  outcome (numerical_try e st) = Raise x -> is_Exception (cls x) = false.
Proof.
  assert (Hh : forall y t,
             outcome (numerical_handled y st t) = Raise x ->
             is_Exception (cls x) = false).
  { intros y t. unfold numerical_handled.
    destruct (isinstance y [NameError]); [discriminate|].
    destruct (isinstance y [TypeError]); [discriminate|].
    destruct (is_Exception (cls y)) eqn:E; [discriminate|].
    cbn. intros H. injection H as <-. exact E. }
  rewrite numerical_try_run.
  destruct (lambdify L e) as [f|y]; [|apply Hh].
  destruct (fsolve L f (num_1_0 L)) as [out|y]; [|apply Hh].
  destruct (fs_ier out =? 1)%Z; [|discriminate].
  destruct (index0 (fs_x out)) as [v|y]; [|apply Hh].
  destruct (f v) as [r|y]; [|apply Hh].
  destruct (isclose L r (num_0 L)); discriminate.
Qed.

Lemma symbolic_try_raise (s : PyStr.text) (x : exn) :
  outcome (symbolic_try L s) = Raise x -> is_Exception (cls x) = false.
Proof.
  pose proof (symbolic_try_gate (L:=L) s) as G.
  destruct (symbolic_try L s) as [[[u|y] st1] t1]; [discriminate|].
  destruct G as (_ & _ & G). cbn. intros H. injection H as <-. exact G.
Qed.

(** The literal lines of each stage are lines of that stage. *)
Lemma symbolic_try_texts (s : PyStr.text) :
  incl (texts (trace (symbolic_try L s))) symbolic_literals.
Proof.
  rewrite symbolic_try_run.
  destruct (sympify_calls_only _ (parse_calls_sympify (L:=L) s))
    as (_ & _ & _ & Q & _).
  assert (Hh : forall x st t, texts t = [] ->
             incl (texts (trace (handled (L:=L) x st t))) symbolic_literals).
  { intros x st t Ht. unfold handled, trace.
    destruct (is_parse_class x); [|destruct (is_Exception (cls x))];
      cbn [snd]; unfold texts in *; rewrite ?flat_map_app, ?Ht;
      incl_literals. }
  destruct (parse_result L s) as [e|x].
  - destruct (solveset L e) as [sol|x].
    + unfold trace; cbn [snd].
      change (Call (CSolveset e) :: report_events sol)
        with ([Call (CSolveset e)] ++ report_events sol).
      unfold texts in *. rewrite !flat_map_app, Q. cbn [flat_map app].
      unfold report_events, report_symbolic.
      destruct (is_FiniteSet L sol && truth L sol);
        [|destruct (is_ConditionSet L sol);
          [|destruct (is_EmptySet L sol)]]; incl_literals.
    + apply Hh. unfold texts in *. now rewrite flat_map_app, Q.
  - apply Hh. exact Q.
Qed.

Lemma numerical_try_texts (e : Expr L) (st : locals L) :
  incl (texts (trace (numerical_try e st))) numerical_literals.
Proof.
  assert (Hh : forall x t, incl (texts t) numerical_literals ->
             incl (texts (trace (numerical_handled x st t))) numerical_literals).
  { intros x t Ht. unfold numerical_handled, trace.
    destruct (isinstance x [NameError]);
      [|destruct (isinstance x [TypeError]);
        [|destruct (is_Exception (cls x))]];
      cbn [snd]; unfold texts in *; rewrite ?flat_map_app;
      try assumption; apply incl_app; try assumption; incl_literals. }
  rewrite numerical_try_run.
  destruct (lambdify L e) as [f|x]; [|apply Hh; incl_literals].
  assert (Hp : incl (texts (numerical_prefix e)) numerical_literals)
    by incl_literals.
  destruct (fsolve L f (num_1_0 L)) as [out|x]; [|now apply Hh].
  destruct (fs_ier out =? 1)%Z; [|unfold trace; incl_literals].
  destruct (index0 (fs_x out)) as [v|x]; [|now apply Hh].
  destruct (f v) as [r|x];
    [|apply Hh; unfold texts; rewrite flat_map_app;
      apply incl_app; [exact Hp|incl_literals]].
  destruct (isclose L r (num_0 L)); unfold trace; incl_literals.
Qed.

End WholeRun.

(** ** What the stages do to each other *)

(** X6.  An empty solution set does not stop the fallback: when [solveset]
    returns a set that is empty (no [ConditionSet], [is_EmptySet], false
    as a boolean), the run prints that there is no real solution and
    still enters the numerical stage, calling [lambdify] on the
    expression. *)
Theorem empty_set_still_tries_numerical (L : Libraries) (line : PyStr.text)
    (e : Expr L) (sol : SymSet L) :
  PyStr.all_space line = false ->
  normalize L line = Ok e ->
  solveset L e = Ok sol ->
  truth L sol = false ->
  is_ConditionSet L sol = false ->
  is_EmptySet L sol = true ->
  let t := trace (run L (Ok line)) in
  In "Symbolic solver found no real solutions." (texts t)
  /\ solution_lists t = []
  /\ numerical_invoked t = true
  /\ lambdified t = [e].
Proof.
  intros Hb Hn Hs Ht Hc He. cbv zeta.
  assert (Hd : fallback_due L (PyStr.strip line) = true).
  { unfold fallback_due. unfold normalize in Hn.
    now rewrite Hn, Hs, (solved_not_None e sol Hs), Ht, andb_false_r. }
  split; [|split; [|split]].
  - destruct (run_with_fallback line Hb Hd)
      as (e' & st1 & t3 & _ & _ & _ & _ & _ & _ & _ & -> & _).
    unfold texts. rewrite !flat_map_app. apply in_or_app. right.
    apply in_or_app. left. rewrite symbolic_try_run.
    unfold normalize in Hn. rewrite Hn, Hs. unfold trace; cbn [snd].
    rewrite flat_map_app. apply in_or_app. right.
    unfold report_events, report_symbolic. rewrite Ht, andb_false_r, Hc, He.
    cbn. auto.
  - destruct (run_with_fallback line Hb Hd)
      as (e' & st1 & t3 & _ & _ & _ & _ & _ & _ & _ & -> & H3).
    destruct (numerical_try_trace e' st1) as (t' & -> & _ & _ & N).
    destruct (preamble_silent (L:=L)) as (_ & _ & _ & _ & _ & _ & A & _).
    destruct (sympify_calls_silent _
                (parse_calls_sympify (L:=L) (PyStr.strip line)))
      as (_ & _ & _ & _ & _ & _ & Q & _).
    assert (C : solution_lists t3 = [])
      by (destruct H3 as [[-> _]|[-> _]]; reflexivity).
    rewrite symbolic_try_run. unfold normalize in Hn. rewrite Hn, Hs.
    unfold trace; cbn [snd].
    change (Call (CSolveset e) :: report_events sol)
      with ([Call (CSolveset e)] ++ report_events sol).
    change (Call (CLambdify e') :: t') with ([Call (CLambdify e')] ++ t').
    rewrite !solution_lists_app, A, Q, N, C.
    unfold report_events, report_symbolic. rewrite Ht, andb_false_r, Hc, He.
    reflexivity.
  - now rewrite numerical_invoked_run, Hb, Hd.
  - destruct (run_calls (L:=L) line Hb) as (_ & _ & HN).
    destruct (run_with_fallback line Hb Hd)
      as (e' & st1 & t3 & Hn' & _ & _ & _ & _ & _ & _ & HT & H3).
    assert (e' = e) by congruence. subst e'. rewrite HT.
    destruct (numerical_try_calls e st1) as (_ & _ & N & _). cbv zeta in N.
    destruct (symbolic_try_calls (L:=L) (PyStr.strip line)) as (S & _).
    cbv zeta in S.
    assert (C : lambdified t3 = [])
      by (destruct H3 as [[-> _]|[-> _]]; reflexivity).
    unfold lambdified in *. rewrite !flat_map_app, S, N, C. reflexivity.
Qed.

Lemma empty_set_still_tries_numerical_witness :
  numerical_invoked (trace (run Sample.libs (Ok (text_of "x**2 + 1 = 0")))) = true.
Proof.
  refine (proj1 (proj2 (proj2
    (empty_set_still_tries_numerical Sample.libs (text_of "x**2 + 1 = 0")
       (Sample.Diff (Sample.Parsed "x**2 + 1") (Sample.IntLit 0))
       Sample.EmptySet _ _ _ _ _ _)))); reflexivity.
Defined.

(** X7.  An exception of [solveset] that is a [SympifyError], a [TypeError]
    or a [SyntaxError] is taken by the first [except] clause: it is
    reported as a parse error, [equation_expr] is reset to [None], and
    the numerical stage does not run although the line was parsed. *)
Theorem solving_error_taken_for_parse_error (L : Libraries) (line : PyStr.text)
    (e : Expr L) (x : exn) :
  PyStr.all_space line = false ->
  normalize L line = Ok e ->
  solveset L e = Raise x ->
  is_parse_class x = true ->
  let R := run L (Ok line) in
  outcome R = Ok tt
  /\ parse_errors (trace R) = [x]
  /\ unexpected_symbolic (trace R) = []
  /\ equation_expr (final_locals R) = None
  /\ numerical_invoked (trace R) = false
  /\ lambdified (trace R) = [].
Proof.
  intros Hb Hn Hs Hp. cbv zeta.
  assert (Hd : fallback_due L (PyStr.strip line) = false).
  { unfold fallback_due. unfold normalize in Hn. rewrite Hn, Hs, Hp.
    apply andb_false_r. }
  assert (Hi : numerical_invoked (trace (run L (Ok line))) = false)
    by now rewrite numerical_invoked_run, Hb, Hd.
  destruct (run_without_fallback line Hb Hd) as (t3 & -> & -> & HT & H3).
  rewrite Hi, HT. clear Hi HT.
  destruct (symbolic_try_calls (L:=L) (PyStr.strip line)) as (S & _).
  cbv zeta in S. revert H3 S.
  rewrite symbolic_try_run. unfold normalize in Hn. rewrite Hn, Hs.
  unfold handled. rewrite Hp.
  unfold outcome, final_locals, trace; cbn [fst snd].
  intros [[_ H]|[-> _]] S; [now elim H|].
  destruct (preamble_silent (L:=L)) as (_ & _ & _ & _ & A1 & A2 & _).
  destruct (sympify_calls_silent _
              (parse_calls_sympify (L:=L) (PyStr.strip line)))
    as (_ & _ & _ & _ & Q1 & Q2 & _).
  rewrite !parse_errors_app, !unexpected_symbolic_app, A1, A2, Q1, Q2.
  unfold lambdified in *. rewrite !flat_map_app in S.
  rewrite !flat_map_app, S.
  repeat split.
Qed.

Lemma solving_error_taken_for_parse_error_witness :
  lambdified
    (trace (run (Sample.libs_solveset_raising
                   (mkExn TypeError "cannot determine truth value of Relational"))
              (Ok (text_of "x**2 - 5*x + 6 = 0")))) = [].
Proof.
  refine (proj2 (proj2 (proj2 (proj2 (proj2
    (solving_error_taken_for_parse_error
       (Sample.libs_solveset_raising
          (mkExn TypeError "cannot determine truth value of Relational"))
       (text_of "x**2 - 5*x + 6 = 0")
       (Sample.Diff (Sample.Parsed "x**2 - 5*x + 6") (Sample.IntLit 0))
       (mkExn TypeError "cannot determine truth value of Relational")
       _ _ _ _)))))); reflexivity.
Defined.

Section Reach.
Context {L : Libraries}.

(** The numerical stage was entered: the line is not blank and line 96
    held. *)
Lemma invoked_inv (line : PyStr.text) :
  numerical_invoked (trace (run L (Ok line))) = true ->
  PyStr.all_space line = false /\ fallback_due L (PyStr.strip line) = true.
Proof.
  rewrite numerical_invoked_run. intros H.
  apply andb_true_iff in H as [Hb Hd]. apply negb_true_iff in Hb. auto.
Qed.

End Reach.

(** X8.  When [fsolve] returns with [ier] other than
    1, the run reports that the solver did not converge, prints the
    solver's own message, evaluates no candidate, reports no solution and
    returns normally. *)
Theorem no_convergence_is_reported (L : Libraries) (line : PyStr.text)
    (e : Expr L) (f : Num L -> result (Num L)) (out : fsolve_output (Num L)) :
  normalize L line = Ok e ->
  numerical_invoked (trace (run L (Ok line))) = true ->
  lambdify L e = Ok f ->
  fsolve L f (num_1_0 L) = Ok out ->
  fs_ier out <> 1%Z ->
  let R := run L (Ok line) in
  outcome R = Ok tt
  /\ solver_messages (trace R) = [fs_mesg out]
  /\ In "Numerical solver did not converge or failed." (texts (trace R))
  /\ examined (trace R) = []
  /\ numerical_found (trace R) = []
  /\ residual_mismatches (trace R) = []
  /\ numerical_solution_val (final_locals R) = None.
Proof.
  intros Hn Hi Hl Hs Hier. cbv zeta.
  destruct (invoked_inv line Hi) as [Hb Hd].
  assert (Hne : (fs_ier out =? 1)%Z = false) by now apply Z.eqb_neq.
  assert (HT : forall st, numerical_try e st =
               (Ok tt, st,
                numerical_prefix e ++
                [Print (Text "Numerical solver did not converge or failed.");
                 Print (SolverMessage (fs_mesg out))]))
    by (intros st; now rewrite numerical_try_run, Hl, Hs, Hne).
  destruct (run_fallback_shows (L:=L) line Hi)
    as (e0 & st0 & Hn0 & _ & Hv0 & HR).
  assert (e0 = e) by congruence. subst e0.
  cbv zeta in HR. rewrite (HT st0) in HR.
  destruct HR as (Ho & Hf & He & Hfd & Hrm).
  rewrite Ho, Hf, He, Hfd, Hrm, Hv0.
  destruct (run_with_fallback line Hb Hd)
    as (e' & st1 & t3 & Hn' & _ & _ & _ & _ & _ & _ & HTr & H3).
  assert (e' = e) by congruence. subst e'.
  rewrite (HT st1) in HTr, H3.
  unfold outcome in H3; cbn [fst] in H3.
  destruct H3 as [[_ H]|[-> _]]; [now elim H|]. rewrite HTr.
  destruct (symbolic_try_calls (L:=L) (PyStr.strip line))
    as (_ & _ & _ & S & _). cbv zeta in S.
  unfold trace in S |- *; cbn [snd].
  split; [reflexivity|]. split; [|split; [|repeat split]].
  - unfold solver_messages in *. rewrite !flat_map_app, S. reflexivity.
  - unfold texts. rewrite !flat_map_app.
    apply in_or_app. right. apply in_or_app. right.
    apply in_or_app. left. cbn. auto.
Qed.

Lemma no_convergence_is_reported_witness :
  solver_messages
    (trace (run Sample.libs_not_converging (Ok (text_of "x**2 + 1 = 0"))))
  = ["The iteration is not making good progress."].
Proof.
  refine (proj1 (proj2
    (no_convergence_is_reported Sample.libs_not_converging (text_of "x**2 + 1 = 0")
       (Sample.Diff (Sample.Parsed "x**2 + 1") (Sample.IntLit 0))
       Sample.numeric_func
       (mkFsolve ["1.0"] 5%Z "The iteration is not making good progress.")
       _ _ _ _ _))); try reflexivity.
  discriminate.
Defined.

(** X9.  An exception that leaves [solve_for_x] was raised by the read of the
    line, or is no instance of [Exception]: every [Exception] raised
    after the read is caught by one of the [except] clauses. *)
Theorem only_input_and_interrupts_escape (L : Libraries)
    (stdin : result PyStr.text) (x : exn) :
  outcome (run L stdin) = Raise x ->
  stdin = Raise x \/ is_Exception (cls x) = false.
Proof.
  destruct stdin as [line|y].
  2:{ rewrite run_eof. cbn. intros H. injection H as <-. now left. }
  intros H. right. destruct (PyStr.all_space line) eqn:Hb.
  { rewrite run_blank in H by assumption. discriminate. }
  destruct (fallback_due L (PyStr.strip line)) eqn:Hd.
  - destruct (run_with_fallback line Hb Hd)
      as (e & st1 & _ & _ & _ & _ & _ & _ & Ho & _).
    rewrite Ho in H. eapply numerical_try_raise; eauto.
  - destruct (run_without_fallback line Hb Hd) as (_ & Ho & _).
    rewrite Ho in H. eapply symbolic_try_raise; eauto.
Qed.

Lemma only_input_and_interrupts_escape_witness :
  @Raise PyStr.text (mkExn EOFError "EOF when reading a line")
  = Raise (mkExn EOFError "EOF when reading a line")
  \/ is_Exception (cls (mkExn EOFError "EOF when reading a line")) = false.
Proof.
  apply (only_input_and_interrupts_escape Sample.libs
           (Raise (mkExn EOFError "EOF when reading a line"))).
  reflexivity.
Defined.

(** ** The local variables at the end *)

Section Locals.
Context {L : Libraries}.

Lemma symbolic_try_locals (s : PyStr.text) :
  let st := final_locals (symbolic_try L s) in
  (forall e, equation_expr st = Some e -> parse_result L s = Ok e)
  /\ (forall sol, symbolic_solutions st = Some sol ->
        exists e, equation_expr st = Some e /\ solveset L e = Ok sol)
  /\ numerical_solution_val st = None.
Proof.
  cbv zeta. rewrite symbolic_try_run. unfold handled.
  assert (Hv : forall e e', py_value (L:=L) e = Some e' -> Ok e = Ok e'
                            :> result (Expr L)).
  { intros e e' H. apply py_value_Some in H as [-> _]. reflexivity. }
  destruct (parse_result L s) as [e|x].
  - destruct (solveset L e) as [sol|x] eqn:Hs.
    + unfold final_locals; cbn. repeat split.
      * apply Hv.
      * intros sol' E. injection E as <-. exists e. split; [|exact Hs].
        unfold py_value. now rewrite (solved_not_None e sol Hs).
    + destruct (is_parse_class x); [|destruct (is_Exception (cls x))];
        unfold final_locals; cbn; repeat split;
        try discriminate; try apply Hv.
  - destruct (is_parse_class x); [|destruct (is_Exception (cls x))];
      unfold final_locals; cbn; repeat split; discriminate.
Qed.

Lemma numerical_try_locals (e : Expr L) (st : locals L) :
  numerical_solution_val st = None ->
  let R := numerical_try e st in
  equation_expr (final_locals R) = equation_expr st
  /\ symbolic_solutions (final_locals R) = symbolic_solutions st
  /\ (forall v, numerical_solution_val (final_locals R) = Some v
                <-> numerical_found (trace R) = [v]).
Proof.
  intros Hv. cbv zeta. pose proof (numerical_try_shows e st) as T.
  destruct (numerical_try e st) as [[r st'] t].
  unfold final_locals, trace; cbn [fst snd]. cbv zeta in T.
  assert (Hq : numerical_found t = [] -> st' = st ->
               equation_expr st' = equation_expr st
               /\ symbolic_solutions st' = symbolic_solutions st
               /\ (forall v, numerical_solution_val st' = Some v
                             <-> numerical_found t = [v])).
  { intros -> ->. rewrite Hv. repeat split; discriminate. }
  destruct (lambdify L e) as [f|];
    [|destruct T as (_ & ? & _ & ?); now apply Hq].
  destruct (fsolve L f (num_1_0 L)) as [out|];
    [|destruct T as (_ & ? & _ & ?); now apply Hq].
  destruct (fs_ier out =? 1)%Z;
    [|destruct T as (_ & ? & _ & ?); now apply Hq].
  destruct (fs_x out) as [|v rest];
    [destruct T as (_ & ? & _ & ?); now apply Hq|].
  destruct (f v) as [r0|];
    [|destruct T as (_ & ? & _ & ?); now apply Hq].
  destruct (isclose L r0 (num_0 L)).
  - destruct T as (_ & -> & _ & ->). cbn. repeat split; congruence.
  - destruct T as (_ & ? & _ & ?). now apply Hq.
Qed.

End Locals.

(** X10.  At the end of a run: [equation_expr], when set, is the normalized
    expression of the line; [symbolic_solutions], when set, is what
    [solveset] returned for it; and [numerical_solution_val] holds a
    value exactly when that value was printed as the numerical
    solution. *)
Theorem final_locals_agree (L : Libraries) (line : PyStr.text) :
  let R := run L (Ok line) in
  (forall e, equation_expr (final_locals R) = Some e -> normalize L line = Ok e)
  /\ (forall sol, symbolic_solutions (final_locals R) = Some sol ->
        exists e, equation_expr (final_locals R) = Some e
                  /\ solveset L e = Ok sol)
  /\ (forall v, numerical_solution_val (final_locals R) = Some v
                <-> numerical_found (trace R) = [v]).
Proof.
  cbv zeta. destruct (PyStr.all_space line) eqn:Hb.
  { rewrite run_blank by assumption. unfold final_locals, trace; cbn.
    repeat split; discriminate. }
  destruct (symbolic_try_locals (L:=L) (PyStr.strip line)) as (S1 & S2 & S3).
  cbv zeta in S1, S2, S3.
  destruct (fallback_due L (PyStr.strip line)) eqn:Hd.
  - destruct (run_with_fallback line Hb Hd)
      as (e & st1 & t3 & Hn & _ & Hst & Hq & Hv & _ & Hf & HT & H3).
    subst st1.
    destruct (numerical_try_locals e _ Hv) as (N1 & N2 & N3).
    cbv zeta in N1, N2, N3. rewrite Hf, N1, N2.
    split; [exact S1|]. split; [exact S2|].
    intros v. rewrite N3.
    destruct (preamble_silent (L:=L)) as (_ & A & _).
    destruct (symbolic_try_silent (L:=L) (PyStr.strip line)) as (_ & S & _).
    cbv zeta in S. rewrite HT.
    assert (C : numerical_found t3 = [])
      by (destruct H3 as [[-> _]|[-> _]]; reflexivity).
    rewrite !numerical_found_app, A, S, C, app_nil_r. reflexivity.
  - destruct (run_without_fallback line Hb Hd) as (t3 & _ & Hf & HT & H3).
    rewrite Hf. split; [exact S1|]. split; [exact S2|].
    intros v. rewrite S3, HT.
    destruct (preamble_silent (L:=L)) as (_ & A & _).
    destruct (symbolic_try_silent (L:=L) (PyStr.strip line)) as (_ & S & _).
    cbv zeta in S.
    assert (C : numerical_found t3 = [])
      by (destruct H3 as [[-> _]|[-> _]]; reflexivity).
    rewrite !numerical_found_app, A, S, C. split; discriminate.
Qed.

Lemma final_locals_agree_witness :
  numerical_solution_val
    (final_locals (run Sample.libs (Ok (text_of "sympy.cos(x) - x"))))
  = Some "0.7390851332151607".
Proof.
  apply (proj2 (proj2 (final_locals_agree Sample.libs (text_of "sympy.cos(x) - x")))).
  reflexivity.
Defined.

(** ** Failures of the numerical stage *)

Section NumericalFailure.
Context {L : Libraries}.

Lemma numerical_failure_run (e : Expr L) (st : locals L) (x : exn) :
  numerical_failure e = Some x ->
  exists t,
    numerical_try e st = numerical_handled x st (Call (CLambdify e) :: t)
    /\ numerical_errors t = [] /\ numerical_found t = []
    /\ residual_mismatches t = []
    /\ incl (texts t) numerical_literals.
Proof.
  unfold numerical_failure. rewrite numerical_try_run.
  unfold numerical_prefix.
  destruct (lambdify L e) as [f|y].
  2:{ intros H. injection H as <-. exists []. repeat split. intros a []. }
  destruct (fsolve L f (num_1_0 L)) as [out|y].
  2:{ intros H. injection H as <-. eexists. split; [reflexivity|].
      repeat split. incl_literals. }
  destruct (fs_ier out =? 1)%Z; [|discriminate].
  destruct (index0 (fs_x out)) as [v|y].
  2:{ intros H. injection H as <-. eexists. split; [reflexivity|].
      repeat split. incl_literals. }
  destruct (f v) as [r|y]; [discriminate|].
  intros H. injection H as <-. eexists. split; [reflexivity|].
  repeat split. incl_literals.
Qed.

End NumericalFailure.

(** The run when the numerical stage fails with an [Exception]. *)
Lemma run_numerical_failure (L : Libraries) (line : PyStr.text)
    (e : Expr L) (x : exn) :
  normalize L line = Ok e ->
  numerical_invoked (trace (run L (Ok line))) = true ->
  numerical_failure e = Some x ->
  is_Exception (cls x) = true ->
  let R := run L (Ok line) in
  outcome R = Ok tt
  /\ numerical_found (trace R) = []
  /\ numerical_solution_val (final_locals R) = None
  /\ numerical_errors (trace R)
     = (if isinstance x [NameError] then [] else [x])
  /\ (isinstance x [NameError] = true ->
      In "Error: SciPy library not found. Please install it (`pip install scipy`)."
         (texts (trace R)))
  /\ In "Solver finished." (texts (trace R)).
Proof.
  intros Hn Hi Hf Hx. cbv zeta.
  destruct (invoked_inv line Hi) as [Hb Hd].
  destruct (run_with_fallback line Hb Hd)
    as (e' & st1 & t3 & Hn' & _ & _ & _ & Hv & Ho & Hfl & HT & H3).
  assert (e' = e) by congruence. subst e'.
  destruct (numerical_failure_run e st1 x Hf) as (t & Hrun & E1 & E2 & E3 & _).
  assert (Hh : numerical_handled x st1 (Call (CLambdify e) :: t) =
               (Ok tt, st1,
                (Call (CLambdify e) :: t) ++
                (if isinstance x [NameError] then
                   [Print (Text "Error: SciPy library not found. Please install it (`pip install scipy`).")]
                 else if isinstance x [TypeError] then
                   [Print (EvalError x);
                    Print (Text "This can happen if the expression still contains symbolic parts or uses unsupported functions.")]
                 else [Print (UnexpectedNumerical x)]))).
  { unfold numerical_handled. rewrite Hx.
    destruct (isinstance x [NameError]); [reflexivity|].
    destruct (isinstance x [TypeError]); reflexivity. }
  rewrite Hrun, Hh in Ho, Hfl, HT, H3.
  destruct (preamble_silent (L:=L)) as (_ & A1 & _).
  destruct (preamble_calls (L:=L)) as (_ & _ & _ & _ & A2 & _).
  destruct (symbolic_try_silent (L:=L) (PyStr.strip line)) as (_ & S1 & _).
  destruct (symbolic_try_calls (L:=L) (PyStr.strip line)) as (_ & _ & S2 & _).
  cbv zeta in S1, S2.
  remember (run L (Ok line)) as R eqn:ER. clear ER.
  remember (symbolic_try L (PyStr.strip line)) as T1 eqn:ET. clear ET.
  unfold outcome, final_locals, trace in *; cbn [fst snd] in *.
  destruct H3 as [[_ H]|[-> _]]; [now elim H|].
  rewrite Ho, Hfl, Hv, HT.
  change (Call (CLambdify e) :: t) with ([Call (CLambdify e)] ++ t).
  split; [reflexivity|]. split; [|split; [reflexivity|split; [|split]]].
  - rewrite !numerical_found_app, A1, S1, E2.
    destruct (isinstance x [NameError]);
      [|destruct (isinstance x [TypeError])]; reflexivity.
  - unfold numerical_errors in *. rewrite !flat_map_app, A2, S2, E1.
    destruct (isinstance x [NameError]);
      [|destruct (isinstance x [TypeError])]; reflexivity.
  - intros ->. unfold texts. rewrite !flat_map_app.
    apply in_or_app. right. apply in_or_app. right. apply in_or_app. left.
    apply in_or_app. right. apply in_or_app. right.
    cbn. auto.
  - unfold texts. rewrite !flat_map_app.
    apply in_or_app. right. apply in_or_app. right. apply in_or_app. right.
    cbn. auto.
Qed.

(** X11.  A failure of the numerical stage does not end the run.  When
    [lambdify], [fsolve], the indexing or the function raises an instance
    of [Exception], no solution is printed or kept and the run goes on to
    its closing lines.  A [NameError] is reported as SciPy missing, and
    its own text is not printed; any other exception is printed. *)
Theorem numerical_failure_is_reported (L : Libraries) (line : PyStr.text)
    (e : Expr L) (x : exn) :
  normalize L line = Ok e ->
  numerical_invoked (trace (run L (Ok line))) = true ->
  numerical_failure e = Some x ->
  is_Exception (cls x) = true ->
  let R := run L (Ok line) in
  outcome R = Ok tt
  /\ numerical_found (trace R) = []
  /\ numerical_solution_val (final_locals R) = None
  /\ numerical_errors (trace R)
     = (if isinstance x [NameError] then [] else [x])
  /\ (isinstance x [NameError] = true ->
      In "Error: SciPy library not found. Please install it (`pip install scipy`)."
         (texts (trace R)))
  /\ In "Solver finished." (texts (trace R)).
Proof. apply run_numerical_failure. Qed.

Lemma numerical_failure_is_reported_witness :
  numerical_errors
    (trace (run (Sample.libs_lambdify_raising
                   (mkExn NameError "name 'y' is not defined"))
              (Ok (text_of "sympy.cos(x) - x")))) = [].
Proof.
  refine (proj1 (proj2 (proj2 (proj2
    (numerical_failure_is_reported
       (Sample.libs_lambdify_raising (mkExn NameError "name 'y' is not defined"))
       (text_of "sympy.cos(x) - x") (Sample.Parsed "sympy.cos(x) - x")
       (mkExn NameError "name 'y' is not defined") _ _ _ _))))); reflexivity.
Defined.

(** ** The lines that frame a run *)

Section Frame.
Context {L : Libraries}.

(** The literal lines of a run on a line that is not blank. *)
Lemma run_texts (line : PyStr.text) :
  PyStr.all_space line = false ->
  exists t3 : list (event L),
    incl (texts (trace (run L (Ok line))))
         (texts (preamble (L:=L)) ++ symbolic_literals
          ++ numerical_header :: numerical_literals ++ texts t3)
    /\ incl (texts t3) (texts (trace (run L (Ok line))))
    /\ ((t3 = [] /\ outcome (run L (Ok line)) <> Ok tt)
        \/ (t3 = events_of_lines closing /\ outcome (run L (Ok line)) = Ok tt)).
Proof.
  intros Hb. destruct (fallback_due L (PyStr.strip line)) eqn:Hd.
  - destruct (run_with_fallback line Hb Hd)
      as (e & st1 & t3 & _ & _ & _ & _ & _ & Ho & _ & HT & H3).
    exists t3. rewrite HT, Ho. split; [|split; [|exact H3]].
    + unfold texts. rewrite !flat_map_app. cbn [flat_map app].
      apply incl_app; [apply incl_appl, incl_refl|].
      apply incl_appr. apply incl_app.
      * apply incl_appl. apply symbolic_try_texts.
      * apply incl_appr. apply incl_cons; [left; reflexivity|].
        apply incl_tl. apply incl_app.
        -- apply incl_appl. apply numerical_try_texts.
        -- apply incl_appr, incl_refl.
    + unfold texts. rewrite !flat_map_app.
      do 3 apply incl_appr. apply incl_refl.
  - destruct (run_without_fallback line Hb Hd) as (t3 & Ho & _ & HT & H3).
    exists t3. rewrite HT, Ho. split; [|split; [|exact H3]].
    + unfold texts. rewrite !flat_map_app.
      apply incl_app; [apply incl_appl, incl_refl|].
      apply incl_appr. apply incl_app.
      * apply incl_appl. apply symbolic_try_texts.
      * apply incl_appr, incl_tl, incl_appr, incl_refl.
    + unfold texts. rewrite !flat_map_app.
      do 2 apply incl_appr. apply incl_refl.
Qed.

End Frame.

(** Membership of a literal in a list of other literals is absurd. *)
Ltac not_a_literal H :=
  cbn in H; repeat (destruct H as [H|H]; [discriminate H|]); destruct H.

(** X12.  "No equation entered." is the report of a blank line and of nothing
    else: it is printed exactly when the line read is empty or all white
    space. *)
Theorem no_equation_message_iff (L : Libraries) (stdin : result PyStr.text) :
  In "No equation entered." (texts (trace (run L stdin)))
  <-> exists line, stdin = Ok line /\ PyStr.all_space line = true.
Proof.
  split.
  - destruct stdin as [line|x].
    2:{ rewrite run_eof. intros H. not_a_literal H. }
    destruct (PyStr.all_space line) eqn:Hb; [eauto|].
    intros H. exfalso.
    destruct (run_texts (L:=L) line Hb) as (t3 & Hin & _ & H3).
    apply Hin in H.
    destruct H3 as [[-> _]|[-> _]]; not_a_literal H.
  - intros (line & -> & Hb). rewrite run_blank by assumption.
    cbn. repeat ((left; reflexivity) || right).
Qed.

(** X13.  The closing lines are printed exactly when a line that is not blank
    was read and [solve_for_x] returns normally. *)
Theorem closing_lines_iff (L : Libraries) (stdin : result PyStr.text) :
  In "Solver finished." (texts (trace (run L stdin)))
  <-> exists line, stdin = Ok line /\ PyStr.all_space line = false
                   /\ outcome (run L stdin) = Ok tt.
Proof.
  split.
  - destruct stdin as [line|x].
    2:{ rewrite run_eof. intros H. not_a_literal H. }
    destruct (PyStr.all_space line) eqn:Hb.
    { rewrite run_blank by assumption. intros H. not_a_literal H. }
    intros H. exists line. split; [reflexivity|]. split; [exact Hb|].
    destruct (run_texts (L:=L) line Hb) as (t3 & Hin & _ & H3).
    apply Hin in H.
    destruct H3 as [[-> _]|[_ Ho]]; [not_a_literal H|exact Ho].
  - intros (line & -> & Hb & Ho).
    destruct (run_texts (L:=L) line Hb) as (t3 & _ & Hin & H3).
    destruct H3 as [[_ H]|[-> _]]; [congruence|].
    apply Hin. cbn. auto.
Qed.

(** X14.  The stages run in order.  Every trace splits in two: before the cut
    there is no event of the numerical stage, after it no call to
    [sympify] or [solveset] and no report of the symbolic stage. *)
Theorem stages_in_order (L : Libraries) (stdin : result PyStr.text) :
  exists a b,
    trace (run L stdin) = a ++ b
    /\ numerical_invoked a = false /\ lambdified a = []
    /\ fsolve_guesses a = [] /\ examined a = [] /\ numerical_found a = []
    /\ sympified b = [] /\ solved b = [] /\ parse_errors b = []
    /\ unexpected_symbolic b = [] /\ solution_lists b = [].
Proof.
  destruct stdin as [line|x].
  2:{ exists (trace (run L (Raise x))), []. rewrite app_nil_r. repeat split. }
  destruct (PyStr.all_space line) eqn:Hb.
  { exists (trace (run L (Ok line))), []. rewrite app_nil_r.
    rewrite run_blank by assumption. repeat split. }
  destruct (run_three_parts (L:=L) line Hb) as (t2 & t3 & HT & H2 & H3).
  exists (preamble ++ trace (symbolic_try L (PyStr.strip line))), (t2 ++ t3).
  split; [now rewrite HT, <- app_assoc|].
  destruct (preamble_silent (L:=L)) as (A1 & A2 & _ & A4 & _).
  destruct (preamble_calls (L:=L)) as (_ & _ & A5 & A6 & _).
  destruct (symbolic_try_silent (L:=L) (PyStr.strip line)) as (S1 & S2 & _ & S4).
  destruct (symbolic_try_calls (L:=L) (PyStr.strip line)) as (S5 & S6 & _).
  cbv zeta in S1, S2, S4, S5, S6.
  rewrite numerical_invoked_app, examined_app, numerical_found_app,
    A1, A2, A4, S1, S2, S4.
  unfold lambdified, fsolve_guesses in *. rewrite !flat_map_app, A5, A6, S5, S6.
  do 5 (split; [reflexivity|]).
  assert (C : sympified t3 = [] /\ solved t3 = [] /\ parse_errors t3 = []
              /\ unexpected_symbolic t3 = [] /\ solution_lists t3 = [])
    by (destruct H3 as [-> | ->]; repeat split).
  destruct C as (C1 & C2 & C3 & C4 & C5).
  assert (N : sympified t2 = [] /\ solved t2 = [] /\ parse_errors t2 = []
              /\ unexpected_symbolic t2 = [] /\ solution_lists t2 = []).
  { destruct H2 as [->|(e & st & _ & ->)]; [repeat split|].
    destruct (numerical_try_calls e st) as (N1 & N2 & _).
    destruct (numerical_try_trace e st) as (t' & Ht & N3 & N4 & N5).
    cbv zeta in N1, N2.
    change (Print (Text numerical_header) :: trace (numerical_try e st))
      with ([Print (Text numerical_header)] ++ trace (numerical_try e st)).
    unfold sympified, solved in *. rewrite !flat_map_app, N1, N2.
    rewrite parse_errors_app, unexpected_symbolic_app, solution_lists_app.
    rewrite Ht.
    change (Call (CLambdify e) :: t') with ([Call (CLambdify e)] ++ t').
    rewrite parse_errors_app, unexpected_symbolic_app, solution_lists_app,
      N3, N4, N5.
    repeat split. }
  destruct N as (N1 & N2 & N3 & N4 & N5).
  unfold sympified, solved in *.
  rewrite !flat_map_app, parse_errors_app, unexpected_symbolic_app,
    solution_lists_app, C1, C2, C3, C4, C5, N1, N2, N3, N4, N5.
  repeat split.
Qed.

Lemma no_equation_message_iff_witness :
  In "No equation entered." (texts (trace (run Sample.libs (Ok (text_of "  "))))).
Proof.
  apply (proj2 (no_equation_message_iff Sample.libs (Ok (text_of "  ")))).
  exists (text_of "  "). split; reflexivity.
Defined.

Lemma closing_lines_iff_witness :
  In "Solver finished." (texts (trace (run Sample.libs (Ok (text_of "1 + x = 4"))))).
Proof.
  apply (proj2 (closing_lines_iff Sample.libs (Ok (text_of "1 + x = 4")))).
  exists (text_of "1 + x = 4"). repeat split.
Defined.

(** ** The report of the symbolic stage *)

Section Report.
Context {L : Libraries}.

Lemma numerical_try_sets (e : Expr L) (st : locals L) :
  sets_printed (trace (numerical_try e st)) = [].
Proof.
  assert (Hh : forall x t, sets_printed t = [] ->
             sets_printed (trace (numerical_handled x st t)) = []).
  { intros x t Ht. unfold numerical_handled, trace.
    destruct (isinstance x [NameError]);
      [|destruct (isinstance x [TypeError]);
        [|destruct (is_Exception (cls x))]];
      cbn [snd]; unfold sets_printed in *; rewrite ?flat_map_app, ?Ht;
      reflexivity. }
  rewrite numerical_try_run.
  destruct (lambdify L e) as [f|x]; [|now apply Hh].
  destruct (fsolve L f (num_1_0 L)) as [out|x]; [|now apply Hh].
  destruct (fs_ier out =? 1)%Z; [|reflexivity].
  destruct (index0 (fs_x out)) as [v|x]; [|now apply Hh].
  destruct (f v) as [r|x]; [|now apply Hh].
  destruct (isclose L r (num_0 L)); reflexivity.
Qed.

End Report.

(** X15.  What is printed of the set that [solveset] returned follows the
    classification of lines 64-82: the list of members for a non-empty
    finite set, and then no numerical stage; the set itself for a
    conditional or any other set; nothing for an empty set; and in these
    three cases the numerical stage runs. *)
Theorem report_follows_classification (L : Libraries) (line : PyStr.text)
    (e : Expr L) (sol : SymSet L) :
  PyStr.all_space line = false ->
  normalize L line = Ok e ->
  solveset L e = Ok sol ->
  let t := trace (run L (Ok line)) in
  match classify sol with
  | Finite =>
      solution_lists t = [map to_python (members L sol)]
      /\ sets_printed t = [] /\ numerical_invoked t = false
  | Conditional | NonFinite =>
      solution_lists t = [] /\ sets_printed t = [sol]
      /\ numerical_invoked t = true
  | Empty =>
      solution_lists t = [] /\ sets_printed t = []
      /\ numerical_invoked t = true
  end.
Proof.
  intros Hb Hn Hs. cbv zeta.
  assert (Hi : numerical_invoked (trace (run L (Ok line)))
               = negb (is_FiniteSet L sol && truth L sol)).
  { rewrite numerical_invoked_run, Hb. unfold fallback_due.
    unfold normalize in Hn. now rewrite Hn, Hs, (solved_not_None e sol Hs). }
  rewrite Hi.
  destruct (run_three_parts (L:=L) line Hb) as (t2 & t3 & -> & H2 & H3).
  assert (C : solution_lists t3 = [] /\ sets_printed t3 = [])
    by (destruct H3 as [-> | ->]; split; reflexivity).
  destruct C as (C1 & C2).
  assert (N : solution_lists t2 = [] /\ sets_printed t2 = []).
  { destruct H2 as [->|(e' & st & _ & ->)]; [split; reflexivity|].
    destruct (numerical_try_trace e' st) as (t' & Ht & _ & _ & N5).
    pose proof (numerical_try_sets e' st) as N6.
    change (Print (Text numerical_header) :: trace (numerical_try e' st))
      with ([Print (Text numerical_header)] ++ trace (numerical_try e' st)).
    unfold sets_printed in *. rewrite solution_lists_app, flat_map_app, N6.
    rewrite Ht.
    change (Call (CLambdify e') :: t') with ([Call (CLambdify e')] ++ t').
    now rewrite solution_lists_app, N5. }
  destruct N as (N1 & N2).
  destruct (preamble_silent (L:=L)) as (_ & _ & _ & _ & _ & _ & A1 & _).
  destruct (sympify_calls_silent _
              (parse_calls_sympify (L:=L) (PyStr.strip line)))
    as (_ & _ & _ & _ & _ & _ & Q1 & _).
  destruct (sympify_calls_only _
              (parse_calls_sympify (L:=L) (PyStr.strip line)))
    as (_ & _ & _ & _ & Q2 & _).
  rewrite symbolic_try_run. unfold normalize in Hn. rewrite Hn, Hs.
  unfold trace; cbn [snd].
  change (Call (CSolveset e) :: report_events sol)
    with ([Call (CSolveset e)] ++ report_events sol).
  unfold sets_printed in *.
  rewrite !solution_lists_app, !flat_map_app, A1, Q1, Q2, N1, N2, C1, C2.
  unfold classify, report_events, report_symbolic.
  destruct (is_FiniteSet L sol && truth L sol); [repeat split|].
  destruct (is_ConditionSet L sol); [repeat split|].
  destruct (is_EmptySet L sol); repeat split.
Qed.

Lemma report_follows_classification_witness :
  solution_lists (trace (run Sample.libs (Ok (text_of "sympy.cos(x) - x")))) = []
  /\ sets_printed (trace (run Sample.libs (Ok (text_of "sympy.cos(x) - x"))))
     = [Sample.ConditionSet (Sample.Parsed "sympy.cos(x) - x")]
  /\ numerical_invoked (trace (run Sample.libs (Ok (text_of "sympy.cos(x) - x")))) = true.
Proof.
  apply (report_follows_classification Sample.libs (text_of "sympy.cos(x) - x")
           (Sample.Parsed "sympy.cos(x) - x")
           (Sample.ConditionSet (Sample.Parsed "sympy.cos(x) - x")));
    reflexivity.
Defined.

(** ** Every failure has its report *)

Section Reports.
Context {L : Libraries}.

(** What the first [try] prints of the exception that ended its body. *)
Lemma symbolic_try_reports (s : PyStr.text) (x : exn) :
  parse_result L s = Raise x
  \/ (exists e, parse_result L s = Ok e /\ solveset L e = Raise x) ->
  is_Exception (cls x) = true ->
  let t := trace (symbolic_try L s) in
  if is_parse_class x
  then parse_errors t = [x] /\ unexpected_symbolic t = []
  else parse_errors t = [] /\ unexpected_symbolic t = [x].
Proof.
  intros H Hx. cbv zeta. rewrite symbolic_try_run.
  destruct (sympify_calls_silent _ (parse_calls_sympify (L:=L) s))
    as (_ & _ & _ & _ & Q1 & Q2 & _).
  assert (Hh : forall st t,
             parse_errors t = [] -> unexpected_symbolic t = [] ->
             let t' := trace (handled (L:=L) x st t) in
             if is_parse_class x
             then parse_errors t' = [x] /\ unexpected_symbolic t' = []
             else parse_errors t' = [] /\ unexpected_symbolic t' = [x]).
  { intros st t H1 H2. unfold handled, trace. rewrite Hx.
    destruct (is_parse_class x); cbn [snd];
      rewrite parse_errors_app, unexpected_symbolic_app, H1, H2;
      split; reflexivity. }
  destruct H as [Hp|(e & Hp & Hs)]; rewrite Hp.
  - now apply Hh.
  - rewrite Hs. apply Hh.
    + now rewrite parse_errors_app, Q1.
    + now rewrite unexpected_symbolic_app, Q2.
Qed.

(** The reports of the symbolic stage in a run are those of the first
    [try]. *)
Lemma run_symbolic_reports (line : PyStr.text) :
  PyStr.all_space line = false ->
  parse_errors (trace (run L (Ok line)))
  = parse_errors (trace (symbolic_try L (PyStr.strip line)))
  /\ unexpected_symbolic (trace (run L (Ok line)))
     = unexpected_symbolic (trace (symbolic_try L (PyStr.strip line))).
Proof.
  intros Hb.
  destruct (run_three_parts (L:=L) line Hb) as (t2 & t3 & -> & H2 & H3).
  destruct (preamble_silent (L:=L)) as (_ & _ & _ & _ & A1 & A2 & _).
  assert (C : parse_errors t3 = [] /\ unexpected_symbolic t3 = [])
    by (destruct H3 as [-> | ->]; split; reflexivity).
  destruct C as (C1 & C2).
  assert (N : parse_errors t2 = [] /\ unexpected_symbolic t2 = []).
  { destruct H2 as [->|(e & st & _ & ->)]; [split; reflexivity|].
    destruct (numerical_try_trace e st) as (t' & Ht & N3 & N4 & _).
    rewrite Ht.
    change (Print (Text numerical_header) :: Call (CLambdify e) :: t')
      with ([Print (Text numerical_header); Call (CLambdify e)] ++ t').
    rewrite parse_errors_app, unexpected_symbolic_app, N3, N4.
    split; reflexivity. }
  destruct N as (N1 & N2).
  rewrite !parse_errors_app, !unexpected_symbolic_app,
    A1, A2, N1, N2, C1, C2, !app_nil_r.
  split; reflexivity.
Qed.

(** An exception that leaves a [try] is the one that ended its body. *)
Lemma symbolic_try_raise_origin (s : PyStr.text) (x : exn) :
  outcome (symbolic_try L s) = Raise x ->
  parse_result L s = Raise x
  \/ (exists e, parse_result L s = Ok e /\ solveset L e = Raise x).
Proof.
  rewrite symbolic_try_run. unfold handled.
  destruct (parse_result L s) as [e|y].
  - destruct (solveset L e) as [sol|y] eqn:Hs; [discriminate|].
    destruct (is_parse_class y); [discriminate|].
    destruct (is_Exception (cls y)); [discriminate|].
    cbn. intros H. injection H as <-. right. eauto.
  - destruct (is_parse_class y); [discriminate|].
    destruct (is_Exception (cls y)); [discriminate|].
    cbn. intros H. injection H as <-. now left.
Qed.

Lemma numerical_try_raise_origin (e : Expr L) (st : locals L) (x : exn) :
  outcome (numerical_try e st) = Raise x -> numerical_failure e = Some x.
Proof.
  assert (Hh : forall y t,
             outcome (numerical_handled y st t) = Raise x -> y = x).
  { intros y t. unfold numerical_handled.
    destruct (isinstance y [NameError]); [discriminate|].
    destruct (isinstance y [TypeError]); [discriminate|].
    destruct (is_Exception (cls y)); [discriminate|].
    cbn. intros H. now injection H. }
  rewrite numerical_try_run. unfold numerical_failure.
  destruct (lambdify L e) as [f|y]; [|intros H; f_equal; eapply Hh, H].
  destruct (fsolve L f (num_1_0 L)) as [out|y];
    [|intros H; f_equal; eapply Hh, H].
  destruct (fs_ier out =? 1)%Z; [|discriminate].
  destruct (index0 (fs_x out)) as [v|y]; [|intros H; f_equal; eapply Hh, H].
  destruct (f v) as [r|y]; [|intros H; f_equal; eapply Hh, H].
  destruct (isclose L r (num_0 L)); discriminate.
Qed.

End Reports.

(** C9, amended.  Once a line was read: an [Exception] that ends the
    parse or is raised by [solveset] is printed by an [except] clause of
    the first [try] (as a parse error for the three classes of the first
    clause, as an unexpected error otherwise); an [Exception] raised in
    the numerical stage is printed by a clause of the second [try] (the
    SciPy line for a [NameError], the exception itself otherwise); an
    exception leaves [solve_for_x] only if one of the libraries raised it
    in this run and it is no instance of [Exception]; so when the
    exceptions raised in the run are instances of [Exception], the
    function returns normally. *)
Theorem C9_failures_are_reported (L : Libraries) (line : PyStr.text) :
  let R := run L (Ok line) in
  (forall x,
     PyStr.all_space line = false ->
     symbolic_failure L line = Some x ->
     is_Exception (cls x) = true ->
     if is_parse_class x
     then parse_errors (trace R) = [x] /\ unexpected_symbolic (trace R) = []
     else parse_errors (trace R) = [] /\ unexpected_symbolic (trace R) = [x])
  /\
  (forall e x,
     normalize L line = Ok e ->
     numerical_invoked (trace R) = true ->
     numerical_failure e = Some x ->
     is_Exception (cls x) = true ->
     if isinstance x [NameError]
     then In "Error: SciPy library not found. Please install it (`pip install scipy`)."
             (texts (trace R))
     else numerical_errors (trace R) = [x])
  /\
  (forall x,
     outcome R = Raise x ->
     is_Exception (cls x) = false
     /\ (symbolic_failure L line = Some x
         \/ exists e, normalize L line = Ok e /\ numerical_failure e = Some x))
  /\
  ((forall x, symbolic_failure L line = Some x -> is_Exception (cls x) = true) ->
   (forall e x, normalize L line = Ok e -> numerical_failure e = Some x ->
                is_Exception (cls x) = true) ->
   outcome R = Ok tt).
Proof.
  cbv zeta.
  assert (H3 : forall x,
             outcome (run L (Ok line)) = Raise x ->
             is_Exception (cls x) = false
             /\ (symbolic_failure L line = Some x
                 \/ exists e, normalize L line = Ok e
                              /\ numerical_failure e = Some x)).
  { intros x H. destruct (PyStr.all_space line) eqn:Hb.
    { rewrite run_blank in H by assumption. discriminate. }
    destruct (fallback_due L (PyStr.strip line)) eqn:Hd.
    - destruct (run_with_fallback line Hb Hd)
        as (e & st1 & _ & Hn & _ & _ & _ & _ & Ho & _).
      rewrite Ho in H. split; [eapply numerical_try_raise; eauto|].
      right. exists e. split; [exact Hn|].
      eapply numerical_try_raise_origin; eauto.
    - destruct (run_without_fallback line Hb Hd) as (_ & Ho & _).
      rewrite Ho in H. split; [eapply symbolic_try_raise; eauto|].
      left. unfold symbolic_failure, normalize.
      destruct (symbolic_try_raise_origin _ _ H) as [Hp|(e & Hp & Hs)];
        rewrite Hp; [reflexivity|now rewrite Hs]. }
  split; [|split; [|split; [exact H3|]]].
  - intros x Hb Hf Hx.
    destruct (run_symbolic_reports (L:=L) line Hb) as [-> ->].
    apply symbolic_try_reports; [|exact Hx].
    unfold symbolic_failure, normalize in Hf.
    destruct (parse_result L (PyStr.strip line)) as [e|y].
    + destruct (solveset L e) as [sol|y] eqn:Hs; [discriminate|].
      injection Hf as ->. right. eauto.
    + injection Hf as ->. now left.
  - intros e x Hn Hi Hf Hx.
    destruct (run_numerical_failure L line e x Hn Hi Hf Hx)
      as (_ & _ & _ & He & Hs & _).
    destruct (isinstance x [NameError]); [now apply Hs|exact He].
  - intros Hs Hn. destruct (outcome (run L (Ok line))) as [[]|x] eqn:Ho;
      [reflexivity|].
    destruct (H3 x eq_refl) as [Hx [Hf|(e & He & Hf)]].
    + rewrite (Hs x Hf) in Hx. discriminate.
    + rewrite (Hn e x He Hf) in Hx. discriminate.
Qed.

(** C9, amended, on three runs: on the line [x.foo] the
    [AttributeError] of the parse is printed as an unexpected error and
    the function returns normally; a [ValueError] of [lambdify] on
    [sympy.cos(x) - x] is printed by the last clause of the second
    [try]. *)
Lemma C9_failures_are_reported_witness :
  (parse_errors (trace (run Sample.libs (Ok (text_of "x.foo")))) = []
   /\ unexpected_symbolic (trace (run Sample.libs (Ok (text_of "x.foo"))))
      = [mkExn AttributeError "'Symbol' object has no attribute 'foo'"])
  /\ numerical_errors
       (trace (run (Sample.libs_lambdify_raising
                      (mkExn ValueError "math domain error"))
                 (Ok (text_of "sympy.cos(x) - x"))))
     = [mkExn ValueError "math domain error"]
  /\ outcome (run Sample.libs (Ok (text_of "x.foo"))) = Ok tt.
Proof.
  split; [|split].
  - refine (proj1 (C9_failures_are_reported Sample.libs (text_of "x.foo"))
              (mkExn AttributeError "'Symbol' object has no attribute 'foo'")
              _ _ _); reflexivity.
  - refine (proj1 (proj2
              (C9_failures_are_reported
                 (Sample.libs_lambdify_raising
                    (mkExn ValueError "math domain error"))
                 (text_of "sympy.cos(x) - x")))
              (Sample.Parsed "sympy.cos(x) - x")
              (mkExn ValueError "math domain error") _ _ _ _); reflexivity.
  - refine (proj2 (proj2 (proj2
              (C9_failures_are_reported Sample.libs (text_of "x.foo")))) _ _).
    + intros x H. vm_compute in H. injection H as <-. reflexivity.
    + intros e x H. vm_compute in H. discriminate H.
Defined.
